(** * Exploring template literals: value processor, template tag and
      source transformer

    A shallow embedding of [processValue], [processTag], [transformTTL],
    [transformLabelToReturn] and [fromFile], with the part of the JavaScript
    run time and of Babel's traversal that these functions rely on. *)

From Stdlib Require Import ZArith List String Ascii Bool Lia Arith PeanoNat.
From Stdlib Require Import DecimalString.
Import ListNotations.
Open Scope string_scope.
Set Warnings "-register-all".

(** ** JavaScript values *)

(** Numbers.  [Int z] is the integer-valued Number [z]; the model covers the
    integers that print in plain decimal notation (magnitude below 10^21) and
    identifies -0 with 0, which no operation below tells apart.  Fractional
    Numbers are outside the model. *)
Inductive number : Type :=
| NaN
| Infinity (negative : bool)
| Int (z : Z).

(** The outcome of evaluating a call: a value is returned or thrown. *)
Inductive completion (A E : Type) : Type :=
| Normal (v : A)
| Throw (e : E).
Arguments Normal {A E} v.
Arguments Throw {A E} e.

Section Runtime.

(** The state of everything a callable can observe or change (the captured
    variables, the console, ...). *)
Context {W : Type}.

(** Values.  A function is its source text together with what a call with no
    arguments does to the world; an array is the list of its elements; a
    record is the list of its own enumerable string-keyed properties, in
    property order, with plain data semantics (no accessor, no [toJSON],
    [toString] or [valueOf] of its own); [VError] is an instance of a
    built-in error class. *)
Inductive value : Type :=
| VUndefined
| VNull
| VBool (b : bool)
| VNum (n : number)
| VStr (s : string)
| VFun (src : string) (call : W -> completion value value * W)
| VArr (elements : list value)
| VObj (props : list (string * value))
| VError (name message : string).

Definition outcome : Type := (completion value value * W)%type.

(** [typeof value] *)
Definition typeof (v : value) : string :=
  match v with
  | VUndefined => "undefined"
  | VNull => "object"
  | VBool _ => "boolean"
  | VNum _ => "number"
  | VStr _ => "string"
  | VFun _ _ => "function"
  | VArr _ | VObj _ | VError _ _ => "object"
  end.

(** ToBoolean *)
Definition ToBoolean (v : value) : bool :=
  match v with
  | VUndefined | VNull => false
  | VBool b => b
  | VNum NaN => false
  | VNum (Infinity _) => true
  | VNum (Int z) => negb (Z.eqb z 0)
  | VStr s => negb (String.eqb s "")
  | VFun _ _ | VArr _ | VObj _ | VError _ _ => true
  end.

(** [a || b] on already evaluated operands *)
Definition js_or (a b : value) : value := if ToBoolean a then a else b.

(** Number::toString, radix 10 *)
Definition NumberToString (n : number) : string :=
  match n with
  | NaN => "NaN"
  | Infinity false => "Infinity"
  | Infinity true => "-Infinity"
  | Int z => NilZero.string_of_int (Z.to_int z)
  end.

(** [sep]-separated concatenation, as [Array.prototype.join] builds it *)
Fixpoint join_strings (sep : string) (l : list string) : string :=
  match l with
  | [] => ""
  | [s] => s
  | s :: rest => s ++ sep ++ join_strings sep rest
  end.

(** ToString.  An array prints as its elements joined by a comma, an
    undefined or null element as nothing; a record prints as
    [[object Object]]; a function as its source text. *)
Fixpoint ToString (v : value) : string :=
  match v with
  | VUndefined => "undefined"
  | VNull => "null"
  | VBool true => "true"
  | VBool false => "false"
  | VNum n => NumberToString n
  | VStr s => s
  | VFun src _ => src
  | VArr elements =>
      join_strings ","
        (map (fun e => match e with
                       | VUndefined | VNull => ""
                       | _ => ToString e
                       end) elements)
  | VObj _ => "[object Object]"
  | VError name message =>
      if String.eqb name "" then message
      else if String.eqb message "" then name
      else name ++ ": " ++ message
  end.

(** *** JSON.stringify *)

Definition hex_digit (n : nat) : ascii :=
  nth n (list_ascii_of_string "0123456789abcdef") "0"%char.

(** The text of one character inside a JSON string (QuoteJSONString): the
    quote and the reverse solidus are escaped, the control characters are
    written with their short escape or as a four-digit unicode escape, every
    other character stands for itself. *)
Definition quote_char (c : ascii) : string :=
  let n := nat_of_ascii c in
  let backslash := String (ascii_of_nat 92) "" in
  if Nat.eqb n 8 then backslash ++ "b"
  else if Nat.eqb n 9 then backslash ++ "t"
  else if Nat.eqb n 10 then backslash ++ "n"
  else if Nat.eqb n 12 then backslash ++ "f"
  else if Nat.eqb n 13 then backslash ++ "r"
  else if Nat.eqb n 34 then backslash ++ String c ""
  else if Nat.eqb n 92 then backslash ++ backslash
  else if Nat.ltb n 32 then
    backslash ++ "u00" ++ String (hex_digit (n / 16)) (String (hex_digit (n mod 16)) "")
  else String c "".

Definition dquote : string := String (ascii_of_nat 34) "".

Definition QuoteJSONString (s : string) : string :=
  dquote ++ concat "" (map quote_char (list_ascii_of_string s)) ++ dquote.

(** SerializeJSONProperty without replacer or indentation: [None] stands for
    the undefined that a function or undefined yields.  In an array such an
    element is written as null; in a record the property is left out.  A
    non-finite number is written as null; the own enumerable properties of
    an error object are none. *)
Fixpoint SerializeJSONProperty (v : value) : option string :=
  match v with
  | VUndefined => None
  | VNull => Some "null"
  | VBool true => Some "true"
  | VBool false => Some "false"
  | VNum (Int z) => Some (NumberToString (Int z))
  | VNum _ => Some "null"
  | VStr s => Some (QuoteJSONString s)
  | VFun _ _ => None
  | VArr elements =>
      Some ("[" ++ join_strings ","
                     (map (fun e => match SerializeJSONProperty e with
                                    | Some t => t
                                    | None => "null"
                                    end) elements) ++ "]")
  | VObj props =>
      Some ("{" ++ join_strings ","
                     (flat_map (fun kv => match SerializeJSONProperty (snd kv) with
                                          | Some t => [QuoteJSONString (fst kv) ++ ":" ++ t]
                                          | None => []
                                          end) props) ++ "}")
  | VError _ _ => Some "{}"
  end.

(** [JSON.stringify(value)] *)
Definition JSON_stringify (v : value) : value :=
  match SerializeJSONProperty v with
  | Some t => VStr t
  | None => VUndefined
  end.

(** *** The Array constructor *)

Definition TypeError (message : string) : value := VError "TypeError" message.

Definition Array_isArray (v : value) : bool :=
  match v with
  | VArr _ => true
  | _ => false
  end.

(** The methods that the Array constructor of the run time (Node.js) has:
    [Array.isArray] and [Array.of].  [Array.from], whose result depends on
    the iteration protocol, is not modelled, and the program does not use
    it.  There is no [Array.join]: [join] is a method of array instances,
    found on [Array.prototype]. *)
Definition Array_method (name : string) : option (list value -> completion value value) :=
  if String.eqb name "isArray" then
    Some (fun args => Normal (VBool (Array_isArray (nth 0 args VUndefined))))
  else if String.eqb name "of" then
    Some (fun args => Normal (VArr args))
  else None.

(** [Array.name(args)]: a call of what is not a function throws a
    TypeError. *)
Definition Array_call (name : string) (args : list value) : completion value value :=
  match Array_method name with
  | Some method => method args
  | None => Throw (TypeError ("Array." ++ name ++ " is not a function"))
  end.

(** [value()]: a call with no arguments. *)
Definition Call (f : value) (w : W) : outcome :=
  match f with
  | VFun _ call => call w
  | _ => (Throw (TypeError "value is not a function"), w)
  end.

(** ** The value processor *)

(** [e || ''] for an expression [e] that may throw *)
Definition or_empty (r : completion value value) : completion value value :=
  match r with
  | Normal v => Normal (js_or v (VStr ""))
  | Throw e => Throw e
  end.

(** [processValue(value)] *)
Definition processValue (value : value) (w : W) : outcome :=
  if String.eqb (typeof value) "function" then
    let (r, w') := Call value w in (or_empty r, w')
  else if Array_isArray value then
    (or_empty (Array_call "join" [VStr ""]), w)
  else if String.eqb (typeof value) "object" then
    (or_empty (Normal (JSON_stringify value)), w)
  else
    (or_empty (Normal value), w).

(** ** The template tag *)

(** [parts[i]] in [result += parts[i]] *)
Definition part_at (parts : list string) (i : nat) : string :=
  nth i parts "undefined".

(** [values[i]] *)
Definition value_at (values : list value) (i : nat) : value :=
  nth i values VUndefined.

(** The loop [for (var i = 1; i < parts.length; i++)] with [n] iterations
    left, that is [n = parts.length - i].  [result] is a string from the
    start, so each [+=] appends the string form of its operand. *)
Fixpoint processTag_loop (processor : value -> W -> outcome)
    (parts : list string) (values : list value)
    (n i : nat) (result : string) (w : W) : outcome :=
  match n with
  | 0 => (Normal (VStr result), w)
  | S n' =>
      match processor (value_at values (i - 1)) w with
      | (Throw e, w') => (Throw e, w')
      | (Normal v, w') =>
          processTag_loop processor parts values n' (S i)
            ((result ++ ToString v) ++ part_at parts i) w'
      end
  end.

(** [processTag(processor)(parts, ...values)].  [parts] is the array of the
    cooked strings of a template.  With no part at all, [parts[0]] is
    undefined and the loop does not run. *)
Definition processTag (processor : value -> W -> outcome)
    (parts : list string) (values : list value) (w : W) : outcome :=
  match parts with
  | [] => (Normal VUndefined, w)
  | p0 :: _ => processTag_loop processor parts values (List.length parts - 1) 1 p0 w
  end.

(** [const t = processTag(processValue)] *)
Definition t : list string -> list value -> W -> outcome := processTag processValue.

(** *** The tag that the specification describes *)

(** The result starts as the first fragment; each value in turn, from the
    left, is processed and appended, followed by the fragment after it.  An
    exception of the processor ends the run. *)
Fixpoint tag_spec_from (processor : value -> W -> outcome) (acc : string)
    (pairs : list (value * string)) (w : W) : outcome :=
  match pairs with
  | [] => (Normal (VStr acc), w)
  | (v, fragment) :: rest =>
      match processor v w with
      | (Throw e, w') => (Throw e, w')
      | (Normal r, w') =>
          tag_spec_from processor (acc ++ ToString r ++ fragment) rest w'
      end
  end.

Definition tag_spec (processor : value -> W -> outcome)
    (fragments : list string) (values : list value) (w : W) : outcome :=
  match fragments with
  | [] => (Normal VUndefined, w)
  | first :: others => tag_spec_from processor first (combine values others) w
  end.

(** [values] cut or filled with undefined to [n] values *)
Definition fit (n : nat) (values : list value) : list value :=
  firstn n (values ++ repeat VUndefined n)%list.

(** The values that are neither callable nor arrays nor records *)
Definition is_primitive (v : value) : bool :=
  match v with
  | VUndefined | VNull | VBool _ | VNum _ | VStr _ => true
  | _ => false
  end.

End Runtime.

Arguments value W : clear implicits.
Arguments outcome W : clear implicits.

(** ** Syntax trees *)

(** The nodes of Babel's syntax tree that the template sources are made of.
    A node is traversed through its fields in the order listed here, which is
    the order of Babel's visitor keys; a quasi of a template literal is kept
    as its text. *)
Inductive Node : Type :=
| File (program : Node)
| Program (body : list Node)
| ExpressionStatement (expression : Node)
| LabeledStatement (label body : Node)
| ReturnStatement (argument : option Node)
| BlockStatement (body : list Node)
| IfStatement (test consequent : Node) (alternate : option Node)
| VariableDeclaration (kind : string) (declarations : list Node)
| VariableDeclarator (id : Node) (init : option Node)
| ForStatement (init test update : option Node) (body : Node)
| WithStatement (object body : Node)
| Identifier (name : string)
| StringLiteral (value : string)
| NumericLiteral (value : Z)
| TemplateLiteral (quasis : list string) (expressions : list Node)
| TaggedTemplateExpression (tag quasi : Node)
| ArrowFunctionExpression (params : list Node) (body : Node)
| CallExpression (callee : Node) (arguments : list Node)
| MemberExpression (object property : Node) (computed : bool)
| BinaryExpression (operator : string) (left right : Node)
| AssignmentExpression (operator : string) (left right : Node)
| UpdateExpression (operator : string) (prefix : bool) (argument : Node).

(** [node.type] *)
Definition node_type (n : Node) : string :=
  match n with
  | File _ => "File"
  | Program _ => "Program"
  | ExpressionStatement _ => "ExpressionStatement"
  | LabeledStatement _ _ => "LabeledStatement"
  | ReturnStatement _ => "ReturnStatement"
  | BlockStatement _ => "BlockStatement"
  | IfStatement _ _ _ => "IfStatement"
  | VariableDeclaration _ _ => "VariableDeclaration"
  | VariableDeclarator _ _ => "VariableDeclarator"
  | ForStatement _ _ _ _ => "ForStatement"
  | WithStatement _ _ => "WithStatement"
  | Identifier _ => "Identifier"
  | StringLiteral _ => "StringLiteral"
  | NumericLiteral _ => "NumericLiteral"
  | TemplateLiteral _ _ => "TemplateLiteral"
  | TaggedTemplateExpression _ _ => "TaggedTemplateExpression"
  | ArrowFunctionExpression _ _ => "ArrowFunctionExpression"
  | CallExpression _ _ => "CallExpression"
  | MemberExpression _ _ _ => "MemberExpression"
  | BinaryExpression _ _ _ => "BinaryExpression"
  | AssignmentExpression _ _ _ => "AssignmentExpression"
  | UpdateExpression _ _ _ => "UpdateExpression"
  end.

(** [node.name], undefined on a node that has no name *)
Definition name_of (n : Node) : option string :=
  match n with
  | Identifier name => Some name
  | _ => None
  end.

(** [node.expression], undefined on a node that has no expression *)
Definition expression_of (n : Node) : option Node :=
  match n with
  | ExpressionStatement expression => Some expression
  | _ => None
  end.

(** The builders of [@babel/types] that the transforms use. *)
Module types.

Definition identifier (name : string) : Node := Identifier name.

Definition taggedTemplateExpression (tag quasi : Node) : Node :=
  TaggedTemplateExpression tag quasi.

Definition returnStatement (argument : option Node) : Node :=
  ReturnStatement argument.

End types.

(** ** Babel's traversal *)

(** A path: a node and its parent. *)
Record NodePath : Type := { node : Node; parent : Node }.

(** What a visitor method did to its path: the lines that it wrote to the
    console, and the node given to [path.replaceWith], if any. *)
Definition visit : Type := (list string * option Node)%type.

(** A visitor: methods by node type.  A plugin is its visitor. *)
Definition visitor : Type := list (string * (NodePath -> visit)).

(** A traversal that has come to an end: the tree and the console lines. *)
Definition traversed (A : Type) : Type := option (A * list string).

Definition ret {A : Type} (a : A) : traversed A := Some (a, []).

Definition bind {A B : Type} (m : traversed A) (k : A -> traversed B) : traversed B :=
  match m with
  | None => None
  | Some (a, out) =>
      match k a with
      | None => None
      | Some (b, out') => Some (b, (out ++ out')%list)
      end
  end.

Definition said {A : Type} (out : list string) (m : traversed A) : traversed A :=
  bind (Some (tt, out)) (fun _ => m).

Definition each (f : Node -> traversed Node) : list Node -> traversed (list Node) :=
  fix go (l : list Node) : traversed (list Node) :=
    match l with
    | [] => ret []
    | x :: rest => bind (f x) (fun x' => bind (go rest) (fun rest' => ret (x' :: rest')))
    end.

Definition maybe (f : Node -> traversed Node) (o : option Node) : traversed (option Node) :=
  match o with
  | None => ret None
  | Some x => bind (f x) (fun x' => ret (Some x'))
  end.

(** The methods of the merged visitors run on a path in plugin order; the
    first that replaces the node ends the round. *)
Fixpoint call_visitors (vis : visitor) (path : NodePath) : visit :=
  match vis with
  | [] => ([], None)
  | (type, method) :: rest =>
      if String.eqb type (node_type (node path)) then
        match method path with
        | (out, Some replacement) => (out, Some replacement)
        | (out, None) =>
            let (out', r) := call_visitors rest path in ((out ++ out')%list, r)
        end
      else call_visitors rest path
  end.

(** The children of [n], each traversed by [f], in the order of the visitor
    keys. *)
Definition traverse_children (f : Node -> traversed Node) (n : Node) : traversed Node :=
  match n with
  | File program => bind (f program) (fun p => ret (File p))
  | Program body => bind (each f body) (fun b => ret (Program b))
  | ExpressionStatement e => bind (f e) (fun e' => ret (ExpressionStatement e'))
  | LabeledStatement l b =>
      bind (f l) (fun l' => bind (f b) (fun b' => ret (LabeledStatement l' b')))
  | ReturnStatement a => bind (maybe f a) (fun a' => ret (ReturnStatement a'))
  | BlockStatement body => bind (each f body) (fun b => ret (BlockStatement b))
  | IfStatement c a b =>
      bind (f c) (fun c' => bind (f a) (fun a' => bind (maybe f b) (fun b' =>
        ret (IfStatement c' a' b'))))
  | VariableDeclaration kind ds =>
      bind (each f ds) (fun ds' => ret (VariableDeclaration kind ds'))
  | VariableDeclarator id init =>
      bind (f id) (fun id' => bind (maybe f init) (fun init' =>
        ret (VariableDeclarator id' init')))
  | ForStatement i c u b =>
      bind (maybe f i) (fun i' => bind (maybe f c) (fun c' =>
        bind (maybe f u) (fun u' => bind (f b) (fun b' =>
          ret (ForStatement i' c' u' b')))))
  | WithStatement o b =>
      bind (f o) (fun o' => bind (f b) (fun b' => ret (WithStatement o' b')))
  | Identifier _ | StringLiteral _ | NumericLiteral _ => ret n
  | TemplateLiteral quasis es =>
      bind (each f es) (fun es' => ret (TemplateLiteral quasis es'))
  | TaggedTemplateExpression tag quasi =>
      bind (f tag) (fun tag' => bind (f quasi) (fun quasi' =>
        ret (TaggedTemplateExpression tag' quasi')))
  | ArrowFunctionExpression ps b =>
      bind (each f ps) (fun ps' => bind (f b) (fun b' =>
        ret (ArrowFunctionExpression ps' b')))
  | CallExpression c args =>
      bind (f c) (fun c' => bind (each f args) (fun args' =>
        ret (CallExpression c' args')))
  | MemberExpression o p computed =>
      bind (f o) (fun o' => bind (f p) (fun p' => ret (MemberExpression o' p' computed)))
  | BinaryExpression op l r =>
      bind (f l) (fun l' => bind (f r) (fun r' => ret (BinaryExpression op l' r')))
  | AssignmentExpression op l r =>
      bind (f l) (fun l' => bind (f r) (fun r' => ret (AssignmentExpression op l' r')))
  | UpdateExpression op prefix a =>
      bind (f a) (fun a' => ret (UpdateExpression op prefix a'))
  end.

(** The traversal of the node [n] under [parent].  The visitor methods for
    the type of [n] run first.  A replaced node is queued again and visited
    as a new node in the same place; a node left in place has its children
    traversed.  A visitor can replace for ever: [fuel] bounds the depth of
    the visits, and [None] is a traversal that did not end within it. *)
Fixpoint traverse (fuel : nat) (vis : visitor) (parent n : Node) : traversed Node :=
  match fuel with
  | 0 => None
  | S fuel' =>
      match call_visitors vis {| node := n; parent := parent |} with
      | (out, Some replacement) => said out (traverse fuel' vis parent replacement)
      | (out, None) => said out (traverse_children (traverse fuel' vis n) n)
      end
  end.

(** ** The transforms *)

(** [transformTTL(tagName)]: tags the template literals that have no tag. *)
Definition transformTTL (tagName : string) : visitor :=
  [("TemplateLiteral",
    fun path =>
      if negb (String.eqb (node_type (parent path)) "TaggedTemplateExpression") then
        ([], Some (types.taggedTemplateExpression (types.identifier tagName) (node path)))
      else ([], None))].

(** [path.node.label] and [path.node.body] of a labeled statement *)
Definition label_of (n : Node) : option Node :=
  match n with
  | LabeledStatement label _ => Some label
  | _ => None
  end.

Definition body_of (n : Node) : option Node :=
  match n with
  | LabeledStatement _ body => Some body
  | _ => None
  end.

Definition and_then {A B : Type} (o : option A) (f : A -> option B) : option B :=
  match o with
  | Some a => f a
  | None => None
  end.

(** The line that [console.log] writes for a name *)
Definition console_log (name : option string) : list string :=
  match name with
  | Some s => [s]
  | None => ["undefined"]
  end.

Definition same_name (name : option string) (labelName : string) : bool :=
  match name with
  | Some s => String.eqb s labelName
  | None => false
  end.

(** [transformLabelToReturn(labelName)]: the statement labeled [labelName]
    becomes the return of the expression that it labels.  Every label met
    is written to the console. *)
Definition transformLabelToReturn (labelName : string) : visitor :=
  [("LabeledStatement",
    fun path =>
      let name := and_then (label_of (node path)) name_of in
      (console_log name,
       if same_name name labelName then
         Some (types.returnStatement (and_then (body_of (node path)) expression_of))
       else None))].

(** ** Compiling a template file *)

Record Error : Type := { error_name : string; error_message : string }.

(** The function that [new Function(argument, body)] makes; the body is kept
    as its statements. *)
Record FunctionObject : Type := new_Function {
  argument_name : string;
  function_body : list Node
}.

Definition TAG_NAME : string := "t".
Definition ARGUMENT_NAME : string := "context".

Section Compile.

(** The file system and Babel's parser.  A read or a parse can throw; a
    parse that succeeds yields a [File]. *)
Variable readFileSync : string -> completion string Error.
Variable parse : string -> completion Node Error.

(** [transformSync(content, { plugins })]: the visitors of the plugins are
    merged and the tree of [content] is traversed once, from the root, whose
    own node is not visited.  The code of the result is kept as a tree. *)
Definition transformSync (fuel : nat) (content : string) (plugins : list visitor)
    : traversed (completion Node Error) :=
  match parse content with
  | Throw e => ret (Throw e)
  | Normal ast =>
      bind (traverse_children (traverse fuel (List.concat plugins) ast) ast)
        (fun ast' => ret (Normal ast'))
  end.

(** The statements of the program of a file *)
Definition code_of (ast : Node) : list Node :=
  match ast with
  | File (Program body) => body
  | Program body => body
  | other => [other]
  end.

(** [fromFile(templatePath)] *)
Definition fromFile (fuel : nat) (templatePath : string)
    : traversed (completion FunctionObject Error) :=
  match readFileSync templatePath with
  | Throw e => ret (Throw e)
  | Normal content =>
      bind (transformSync fuel content
              [transformTTL TAG_NAME; transformLabelToReturn "template"])
        (fun result =>
           match result with
           | Throw e => ret (Throw e)
           | Normal ast =>
               let body :=
                 [WithStatement (Identifier ARGUMENT_NAME) (BlockStatement (code_of ast))] in
               ret (Normal (new_Function ARGUMENT_NAME body))
           end)
  end.

End Compile.

(** ** Measures and folds over a tree *)

Section Fold.
Context {A : Type} (op : A -> A -> A) (e : A) (f : Node -> A).

Definition fold_maybe (o : option Node) : A :=
  match o with
  | Some x => f x
  | None => e
  end.

Definition fold_each (l : list Node) : A := fold_right (fun x a => op (f x) a) e l.

(** [f] over the children of a node, combined with [op] in field order *)
Definition fold_children (n : Node) : A :=
  match n with
  | File p => op (f p) e
  | Program b => fold_each b
  | ExpressionStatement x => op (f x) e
  | LabeledStatement l b => op (f l) (op (f b) e)
  | ReturnStatement a => fold_maybe a
  | BlockStatement b => fold_each b
  | IfStatement c a b => op (f c) (op (f a) (fold_maybe b))
  | VariableDeclaration _ ds => fold_each ds
  | VariableDeclarator id init => op (f id) (fold_maybe init)
  | ForStatement i c u b => op (fold_maybe i) (op (fold_maybe c) (op (fold_maybe u) (op (f b) e)))
  | WithStatement o b => op (f o) (op (f b) e)
  | Identifier _ | StringLiteral _ | NumericLiteral _ => e
  | TemplateLiteral _ es => fold_each es
  | TaggedTemplateExpression tag quasi => op (f tag) (op (f quasi) e)
  | ArrowFunctionExpression ps b => op (fold_each ps) (op (f b) e)
  | CallExpression c args => op (f c) (fold_each args)
  | MemberExpression o p _ => op (f o) (op (f p) e)
  | BinaryExpression _ l r => op (f l) (op (f r) e)
  | AssignmentExpression _ l r => op (f l) (op (f r) e)
  | UpdateExpression _ _ a => op (f a) e
  end.

End Fold.

Definition children (n : Node) : list Node :=
  fold_children (@List.app Node) [] (fun c => [c]) n.

Fixpoint height (n : Node) : nat := S (fold_children Nat.max 0 height n).

(** The nodes of a tree, the root first *)
Fixpoint nodes (n : Node) : list Node :=
  n :: fold_children (@List.app Node) [] nodes n.

(** The number of nodes of type [type] in a tree *)
Definition count_type (type : string) (n : Node) : nat :=
  List.length (filter (fun m => String.eqb (node_type m) type) (nodes n)).

(** Whether [n] is a statement labeled [labelName] *)
Definition is_labeled (labelName : string) (n : Node) : bool :=
  same_name (and_then (label_of n) name_of) labelName.

(** The number of statements labeled [labelName] in a tree *)
Definition count_labeled (labelName : string) (n : Node) : nat :=
  List.length (filter (is_labeled labelName) (nodes n)).

(** [f] applied to each child of a node *)
Definition map_children (f : Node -> Node) (n : Node) : Node :=
  match n with
  | File p => File (f p)
  | Program b => Program (map f b)
  | ExpressionStatement x => ExpressionStatement (f x)
  | LabeledStatement l b => LabeledStatement (f l) (f b)
  | ReturnStatement a => ReturnStatement (option_map f a)
  | BlockStatement b => BlockStatement (map f b)
  | IfStatement c a b => IfStatement (f c) (f a) (option_map f b)
  | VariableDeclaration kind ds => VariableDeclaration kind (map f ds)
  | VariableDeclarator id init => VariableDeclarator (f id) (option_map f init)
  | ForStatement i c u b =>
      ForStatement (option_map f i) (option_map f c) (option_map f u) (f b)
  | WithStatement o b => WithStatement (f o) (f b)
  | Identifier _ | StringLiteral _ | NumericLiteral _ => n
  | TemplateLiteral quasis es => TemplateLiteral quasis (map f es)
  | TaggedTemplateExpression tag quasi => TaggedTemplateExpression (f tag) (f quasi)
  | ArrowFunctionExpression ps b => ArrowFunctionExpression (map f ps) (f b)
  | CallExpression c args => CallExpression (f c) (map f args)
  | MemberExpression o p computed => MemberExpression (f o) (f p) computed
  | BinaryExpression op l r => BinaryExpression op (f l) (f r)
  | AssignmentExpression op l r => AssignmentExpression op (f l) (f r)
  | UpdateExpression op prefix a => UpdateExpression op prefix (f a)
  end.

Definition is_tagged_template (n : Node) : bool :=
  String.eqb (node_type n) "TaggedTemplateExpression".

(** The number of template literals in a tree whose parent is not a tagged
    template expression; [under_tag] tells whether the parent of [n] is
    one. *)
Fixpoint untagged_literals (under_tag : bool) (n : Node) : nat :=
  (if String.eqb (node_type n) "TemplateLiteral" && negb under_tag then 1 else 0)
  + fold_children Nat.add 0 (untagged_literals (is_tagged_template n)) n.

(** ** The rewriting that the specification describes *)

(** The tree after both passes, by recursion on the tree.  [labelName] is
    [None] without the label pass; [under_tag] tells whether the parent of
    [n] is a tagged template expression.

    - A template literal whose parent is not a tagged template expression is
      tagged with [tagName]; one whose parent is a tagged template
      expression stays in place.  In both cases the expressions inside are
      rewritten.
    - A statement labeled [labelName] becomes the return of the rewritten
      expression that it labels.
    - Elsewhere the children are rewritten. *)
Fixpoint rewrite_spec (tagName : string) (labelName : option string)
    (under_tag : bool) (n : Node) {struct n} : Node :=
  match n with
  | TemplateLiteral quasis es =>
      let literal := TemplateLiteral quasis (map (rewrite_spec tagName labelName false) es) in
      if under_tag then literal
      else TaggedTemplateExpression (Identifier tagName) literal
  | LabeledStatement l b =>
      if match labelName with
         | Some name => is_labeled name n
         | None => false
         end
      then
        match b with
        | ExpressionStatement x =>
            ReturnStatement (Some (rewrite_spec tagName labelName false x))
        | _ => ReturnStatement None
        end
      else map_children (rewrite_spec tagName labelName false) n
  | _ => map_children (rewrite_spec tagName labelName (is_tagged_template n)) n
  end.

(** The tag-insertion pass alone *)
Definition insert_tags (tagName : string) : bool -> Node -> Node :=
  rewrite_spec tagName None.

(** The plugins of a run: the tag insertion, and the label pass if any *)
Definition plugins (tagName : string) (labelName : option string) : list visitor :=
  transformTTL tagName ::
  match labelName with
  | Some name => [transformLabelToReturn name]
  | None => []
  end.

(** ** The template file of the repository *)

Definition newline : string := String (ascii_of_nat 10) "".

(** [template.js], parsed *)
Definition template_js : Node :=
  File (Program [
    ExpressionStatement
      (CallExpression (MemberExpression (Identifier "console") (Identifier "log") false)
         [StringLiteral "Wooohooo!!!!"]);
    VariableDeclaration "const"
      [VariableDeclarator (Identifier "moreData")
         (Some (CallExpression (Identifier "require") [StringLiteral "./extradata"]))];
    LabeledStatement (Identifier "template")
      (ExpressionStatement
         (TemplateLiteral
            ["<header>"; " "; newline ++ "<ul>"; newline ++ "</ul>" ++ newline ++ "</header>"]
            [Identifier "moreData";
             ArrowFunctionExpression []
               (BlockStatement
                  [IfStatement
                     (BinaryExpression "==" (Identifier "mood") (StringLiteral "curious"))
                     (BlockStatement
                        [ReturnStatement
                           (Some (TemplateLiteral ["<h1>"; "</h1>"]
                                    [ArrowFunctionExpression []
                                       (StringLiteral "Not in the data")]))])
                     None]);
             ArrowFunctionExpression []
               (BlockStatement
                  [VariableDeclaration "let"
                     [VariableDeclarator (Identifier "s") (Some (StringLiteral ""))];
                   ForStatement
                     (Some (VariableDeclaration "var"
                              [VariableDeclarator (Identifier "i") (Some (NumericLiteral 0))]))
                     (Some (BinaryExpression "<" (Identifier "i") (NumericLiteral 5)))
                     (Some (UpdateExpression "++" false (Identifier "i")))
                     (BlockStatement
                        [ExpressionStatement
                           (AssignmentExpression "+=" (Identifier "s")
                              (TemplateLiteral ["<li>"; "</li>"] [Identifier "i"]))]);
                   ReturnStatement (Some (Identifier "s"))])]))]).

(** [template.js] as [fromFile] leaves it: the body of the compiled function *)
Definition template_js_compiled : list Node :=
  let tag := TaggedTemplateExpression (Identifier "t") in
  [WithStatement (Identifier "context") (BlockStatement [
    ExpressionStatement
      (CallExpression (MemberExpression (Identifier "console") (Identifier "log") false)
         [StringLiteral "Wooohooo!!!!"]);
    VariableDeclaration "const"
      [VariableDeclarator (Identifier "moreData")
         (Some (CallExpression (Identifier "require") [StringLiteral "./extradata"]))];
    ReturnStatement (Some
         (tag (TemplateLiteral
            ["<header>"; " "; newline ++ "<ul>"; newline ++ "</ul>" ++ newline ++ "</header>"]
            [Identifier "moreData";
             ArrowFunctionExpression []
               (BlockStatement
                  [IfStatement
                     (BinaryExpression "==" (Identifier "mood") (StringLiteral "curious"))
                     (BlockStatement
                        [ReturnStatement
                           (Some (tag (TemplateLiteral ["<h1>"; "</h1>"]
                                    [ArrowFunctionExpression []
                                       (StringLiteral "Not in the data")])))])
                     None]);
             ArrowFunctionExpression []
               (BlockStatement
                  [VariableDeclaration "let"
                     [VariableDeclarator (Identifier "s") (Some (StringLiteral ""))];
                   ForStatement
                     (Some (VariableDeclaration "var"
                              [VariableDeclarator (Identifier "i") (Some (NumericLiteral 0))]))
                     (Some (BinaryExpression "<" (Identifier "i") (NumericLiteral 5)))
                     (Some (UpdateExpression "++" false (Identifier "i")))
                     (BlockStatement
                        [ExpressionStatement
                           (AssignmentExpression "+=" (Identifier "s")
                              (tag (TemplateLiteral ["<li>"; "</li>"] [Identifier "i"])))]);
                   ReturnStatement (Some (Identifier "s"))])])))])].

(** A file system that holds one file, and a parser that knows its tree *)
Definition one_file (path content : string) (p : string) : completion string Error :=
  if String.eqb p path then Normal content
  else Throw {| error_name := "Error"; error_message := "ENOENT" |}.

Definition parse_as (content : string) (ast : Node) (c : string) : completion Node Error :=
  if String.eqb c content then Normal ast
  else Throw {| error_name := "SyntaxError"; error_message := "Unexpected token" |}.

(** The literal [<li>${i}</li>], without a tag and with the tag [t] *)
Definition item_literal : Node := TemplateLiteral ["<li>"; "</li>"] [Identifier "i"].

Definition item_tagged : Node := TaggedTemplateExpression (Identifier "t") item_literal.

(** A source with no labeled statement: the one statement [`hello ${name}`;] *)
Definition unlabeled_js : Node :=
  File (Program [ExpressionStatement (TemplateLiteral ["hello "; ""] [Identifier "name"])]).

Definition unlabeled_js_compiled : list Node :=
  [WithStatement (Identifier "context")
     (BlockStatement
        [ExpressionStatement
           (TaggedTemplateExpression (Identifier "t")
              (TemplateLiteral ["hello "; ""] [Identifier "name"]))])].

(** The tree of a traversal, its console lines left aside *)
Definition tree_of {A : Type} (m : traversed A) : option A := option_map fst m.

(** ** Sample values *)

(** [() => 'x'], [() => undefined] and [() => () => 'x'] *)
Definition returns_x : value unit :=
  VFun "() => 'x'" (fun w => (Normal (VStr "x"), w)).

Definition returns_undefined : value unit :=
  VFun "() => undefined" (fun w => (Normal VUndefined, w)).

Definition returns_function : value unit :=
  VFun "() => () => 'x'" (fun w => (Normal returns_x, w)).

(** A callable that writes its name to a log, the world being the log *)
Definition logs (name : string) : value (list string) :=
  VFun name (fun w => (Normal (VStr name), (w ++ [name])%list)).

(** ** The basic tag and the untagged literal *)

Section BasicTag.
Context {W : Type}.

(** The loop of [basicTag], with [n] iterations left: each [+=] appends the
    string form of the value, as it is, and then the part. *)
Fixpoint basicTag_loop (parts : list string) (values : list (value W))
    (n i : nat) (result : string) : string :=
  match n with
  | 0 => result
  | S n' =>
      basicTag_loop parts values n' (S i)
        ((result ++ ToString (value_at values (i - 1))) ++ part_at parts i)
  end.

(** [basicTag(parts, ...values)] *)
Definition basicTag (parts : list string) (values : list (value W)) : value W :=
  match parts with
  | [] => VUndefined
  | p0 :: _ => VStr (basicTag_loop parts values (List.length parts - 1) 1 p0)
  end.



(** [v || ''] *)
Definition blank (v : value W) : value W := js_or v (VStr "").


End BasicTag.

(** Whether the label pass for [labelName], if any, replaces [n] *)
Definition replaced (labelName : option string) (n : Node) : bool :=
  match labelName with
  | Some name => is_labeled name n
  | None => false
  end.

(** ** The merged visitors as one method *)

(** What the visitor methods of the two transforms, merged, do on a path:
    [tagName] is [None] without the tag insertion, [labelName] is [None]
    without the label pass. *)
Definition visit_spec (tagName labelName : option string) (path : NodePath) : visit :=
  match node path with
  | TemplateLiteral _ _ =>
      ([],
       match tagName with
       | Some tag =>
           if is_tagged_template (parent path) then None
           else Some (TaggedTemplateExpression (Identifier tag) (node path))
       | None => None
       end)
  | LabeledStatement l b =>
      match labelName with
      | Some name =>
          (console_log (name_of l),
           if same_name (name_of l) name then Some (ReturnStatement (expression_of b))
           else None)
      | None => ([], None)
      end
  | _ => ([], None)
  end.

(** The tree after the passes that are there, by recursion on the tree *)
Fixpoint rewrite_with (tagName labelName : option string)
    (under_tag : bool) (n : Node) {struct n} : Node :=
  match n with
  | TemplateLiteral quasis es =>
      let literal := TemplateLiteral quasis (map (rewrite_with tagName labelName false) es) in
      match tagName with
      | Some tag =>
          if under_tag then literal
          else TaggedTemplateExpression (Identifier tag) literal
      | None => literal
      end
  | LabeledStatement l b =>
      if replaced labelName n then
        match b with
        | ExpressionStatement x =>
            ReturnStatement (Some (rewrite_with tagName labelName false x))
        | _ => ReturnStatement None
        end
      else map_children (rewrite_with tagName labelName false) n
  | _ => map_children (rewrite_with tagName labelName (is_tagged_template n)) n
  end.

(** The lines that the label pass writes to the console: the label of each
    labeled statement that the traversal meets, in the order of the source;
    what a replaced statement holds beside its expression is not met. *)
Fixpoint console_spec (labelName : option string) (n : Node) {struct n} : list string :=
  match n with
  | LabeledStatement l b =>
      (match labelName with
       | Some _ => console_log (name_of l)
       | None => []
       end ++
       if replaced labelName n then
         match b with
         | ExpressionStatement x => console_spec labelName x
         | _ => []
         end
       else fold_children (@List.app string) [] (console_spec labelName) n)%list
  | _ => fold_children (@List.app string) [] (console_spec labelName) n
  end.

(** The console line of a labeled statement: its label *)
Definition label_line (n : Node) : list string :=
  match label_of n with
  | Some l => console_log (name_of l)
  | None => []
  end.

(** * Properties *)

(** ** Strings and lists *)

Lemma append_assoc (a b c : string) : (a ++ b) ++ c = a ++ b ++ c.
Proof. induction a as [|x a IH]; simpl; [reflexivity | now rewrite IH]. Qed.

Lemma append_empty_r (a : string) : a ++ "" = a.
Proof. induction a as [|x a IH]; simpl; [reflexivity | now rewrite IH]. Qed.

Lemma value_at_fit {W : Type} (n j : nat) (values : list (value W)) :
  j < n -> value_at (fit n values) j = value_at values j.
Proof.
  intros Hj. unfold value_at, fit.
  rewrite nth_firstn.
  destruct (Nat.ltb_spec j n) as [_|Hge]; [|lia].
  destruct (Nat.lt_ge_cases j (List.length values)) as [Hlt|Hge].
  - now rewrite app_nth1.
  - rewrite app_nth2 by assumption.
    rewrite (nth_overflow values) by assumption.
    apply nth_repeat.
Qed.

(** ** The value processor *)

Section ValueProcessor.
Context {W : Type}.
Implicit Types (v : value W) (w : W).

Lemma processValue_function src call w :
  processValue (VFun src call) w =
  match call w with
  | (Normal r, w') => (Normal (js_or r (VStr "")), w')
  | (Throw e, w') => (Throw e, w')
  end.
Proof.
  unfold processValue; simpl. destruct (call w) as [[r|e] w']; reflexivity.
Qed.

Lemma processValue_undefined w :
  processValue (@VUndefined W) w = (Normal (VStr ""), w).
Proof. reflexivity. Qed.

(** The value processor turns null into the text of null, not into the
    empty string. *)
Lemma processValue_null w :
  processValue (@VNull W) w = (Normal (VStr "null"), w).
Proof. reflexivity. Qed.

(** C10: for every array, the value processor throws a TypeError, the
    Array constructor having no join method to call; it returns no string,
    empty or joined. *)
Theorem processValue_array_throws (elements : list (value W)) w :
  processValue (VArr elements) w = (Throw (TypeError "Array.join is not a function"), w).
Proof. reflexivity. Qed.

(** C9: the value processor returns every string as it is, so a string that
    is a result of the processor is not changed by a second pass. *)
Theorem processValue_string_unchanged (s : string) w :
  processValue (VStr s) w = (Normal (VStr s), w).
Proof.
  unfold processValue; simpl. unfold js_or; simpl.
  destruct s; reflexivity.
Qed.

(** C4, as the code has it: a callable is called once with no arguments;
    its result is returned as it is when truthy and replaced by the empty
    string when falsy, without a second pass of the processor; what it
    throws is thrown on.  So [() => 'x'] gives ['x'] and [() => undefined]
    gives the empty string. *)
Theorem processValue_callable :
  (forall src call w r w',
      call w = (Normal r, w') ->
      processValue (VFun src call) w =
      (Normal (if ToBoolean r then r else VStr ""), w'))
  /\ (forall src call w e w',
      call w = (Throw e, w') ->
      processValue (VFun src call) w = (Throw e, w'))
  /\ processValue returns_x tt = (Normal (VStr "x"), tt)
  /\ processValue returns_undefined tt = (Normal (VStr ""), tt).
Proof.
  repeat split.
  - intros src call w r w' H. now rewrite processValue_function, H.
  - intros src call w e w' H. now rewrite processValue_function, H.
Qed.

(** The text of a record is never empty. *)
Lemma SerializeJSONProperty_record (props : list (string * value W)) :
  exists text, SerializeJSONProperty (VObj props) = Some (String "{" text).
Proof. simpl. eexists. reflexivity. Qed.

(** C5, as the code has it: a record is turned into its JSON text; a
    primitive other than null is returned as it is when truthy, a number or
    a boolean staying a number or a boolean, and replaced by the empty
    string when falsy. *)
Theorem processValue_record_or_primitive v w :
  (forall props, v = VObj props ->
     exists text, JSON_stringify v = VStr (String "{" text)
                  /\ processValue v w = (Normal (JSON_stringify v), w))
  /\ (is_primitive v = true -> v <> VNull ->
      processValue v w = (Normal (if ToBoolean v then v else VStr ""), w)).
Proof.
  split.
  - intros props ->.
    destruct (SerializeJSONProperty_record props) as [text H].
    exists text. unfold processValue, JSON_stringify. rewrite H. simpl.
    split; reflexivity.
  - intros Hp Hn. destruct v; try discriminate; try reflexivity.
    congruence.
Qed.

End ValueProcessor.

(** C1: on the array ['a', 'b'] the value processor throws instead of
    returning the joined elements. *)
Theorem processValue_array_not_joined :
  processValue (VArr [VStr "a"; VStr "b"]) tt =
  (Throw (VError "TypeError" "Array.join is not a function"), tt).
Proof. reflexivity. Qed.

Lemma processValue_callable_witness :
  processValue returns_x tt = (Normal (VStr "x"), tt).
Proof.
  exact (proj1 processValue_callable "() => 'x'"
           (fun w => (Normal (VStr "x"), w)) tt (VStr "x") tt eq_refl).
Defined.

(** The claim C4 fails: the function that [() => () => 'x'] returns is
    handed back as it is, where a second pass would have given ['x']. *)
Lemma processValue_callable_not_recursive :
  processValue returns_function tt = (Normal returns_x, tt)
  /\ processValue returns_x tt = (Normal (VStr "x"), tt).
Proof. split; reflexivity. Qed.

Lemma processValue_record_or_primitive_witness :
  processValue (VBool true) tt = (Normal (VBool true), tt).
Proof.
  refine (proj2 (processValue_record_or_primitive (VBool true) tt) eq_refl _).
  discriminate.
Defined.

(** The claim C5 fails: the number 5 comes back as a number, not as its
    string form. *)
Lemma processValue_number_not_string :
  processValue (VNum (Int 5)) tt = (Normal (VNum (Int 5)), tt)
  /\ typeof (VNum (Int 5) : value unit) = "number"
  /\ ToString (VNum (Int 5) : value unit) = "5".
Proof. repeat split. Qed.

(** ** The template tag *)

Section TemplateTag.
Context {W : Type}.
Variable processor : value W -> W -> outcome W.

(** The loop, entered at index [length before] with the fragments [rest]
    and the values [vrest] still to come, is the run of the specification
    over these. *)
Lemma processTag_loop_spec (rest : list string) :
  forall (before : list string) (vbefore vrest : list (value W)) (result : string) (w : W),
    List.length vrest = List.length rest ->
    S (List.length vbefore) = List.length before ->
    processTag_loop processor (before ++ rest) (vbefore ++ vrest)
      (List.length rest) (List.length before) result w
    = tag_spec_from processor result (combine vrest rest) w.
Proof.
  induction rest as [|r rest IH]; intros before vbefore vrest result w Hlen Hidx.
  - destruct vrest; [reflexivity | discriminate].
  - destruct vrest as [|v vrest]; [discriminate|].
    simpl in Hlen. injection Hlen as Hlen.
    cbn [List.length processTag_loop combine tag_spec_from].
    assert (Hv : value_at (vbefore ++ v :: vrest) (List.length before - 1) = v).
    { unfold value_at. rewrite <- Hidx. simpl. rewrite Nat.sub_0_r.
      apply nth_middle. }
    assert (Hp : part_at (before ++ r :: rest) (List.length before) = r).
    { unfold part_at. apply nth_middle. }
    rewrite Hv, Hp.
    destruct (processor v w) as [[x|e] w']; [|reflexivity].
    rewrite append_assoc.
    replace (before ++ r :: rest)%list with ((before ++ [r]) ++ rest)%list
      by (rewrite <- app_assoc; reflexivity).
    replace (vbefore ++ v :: vrest)%list with ((vbefore ++ [v]) ++ vrest)%list
      by (rewrite <- app_assoc; reflexivity).
    replace (S (List.length before)) with (List.length (before ++ [r])%list)
      by (rewrite length_app; simpl; lia).
    apply IH; [assumption|].
    rewrite !length_app; simpl; lia.
Qed.

(** C2: with one fragment more than values, the tag returns the first
    fragment followed, for each value from the left, by the processed value
    and the fragment after it; the world goes through the processor calls in
    that order, and the first exception ends the run. *)
Theorem processTag_follows_spec (parts : list string) (values : list (value W)) (w : W) :
  List.length parts = S (List.length values) ->
  processTag processor parts values w = tag_spec processor parts values w.
Proof.
  intros Hlen. destruct parts as [|p0 rest]; [discriminate|].
  simpl in Hlen. injection Hlen as Hlen.
  unfold processTag, tag_spec.
  replace (List.length (p0 :: rest) - 1) with (List.length rest) by (simpl; lia).
  exact (processTag_loop_spec rest [p0] [] values p0 w (eq_sym Hlen) eq_refl).
Qed.

(** The loop reads the values of its own index range only. *)
Lemma processTag_loop_ext (parts : list string) (values values' : list (value W)) :
  forall n i result w,
    1 <= i ->
    (forall j, i - 1 <= j < i - 1 + n -> value_at values j = value_at values' j) ->
    processTag_loop processor parts values n i result w
    = processTag_loop processor parts values' n i result w.
Proof.
  induction n as [|n IH]; intros i result w Hi Hsame; [reflexivity|].
  simpl. rewrite (Hsame (i - 1)) by lia.
  destruct (processor (value_at values' (i - 1)) w) as [[x|e] w']; [|reflexivity].
  apply IH; [lia|]. intros j Hj. apply Hsame. lia.
Qed.

Lemma processTag_fit (parts : list string) (values : list (value W)) (w : W) :
  processTag processor parts values w
  = processTag processor parts (fit (List.length parts - 1) values) w.
Proof.
  unfold processTag. destruct parts as [|p0 rest]; [reflexivity|].
  apply processTag_loop_ext; [lia|].
  intros j Hj. symmetry. apply value_at_fit. lia.
Qed.

End TemplateTag.

Section Tag.
Context {W : Type}.

(** With no value at all, the loop of [t] appends the fragments. *)
Lemma t_loop_no_values (parts : list string) :
  forall n i result (w : W),
    i + n = List.length parts ->
    processTag_loop processValue parts [] n i result w
    = (Normal (VStr (result ++ fold_right String.append "" (skipn i parts))), w).
Proof.
  induction n as [|n IH]; intros i result w Hlen.
  - rewrite skipn_all2 by lia. simpl. now rewrite append_empty_r.
  - cbn [processTag_loop].
    replace (value_at [] (i - 1)) with (@VUndefined W)
      by (unfold value_at; now destruct (i - 1)).
    rewrite processValue_undefined. cbn [ToString].
    rewrite IH by lia. rewrite append_empty_r, append_assoc.
    do 3 f_equal.
    assert (Hi : i < List.length parts) by lia.
    clear - Hi. revert i Hi.
    induction parts as [|p parts IHp]; intros i Hi; [simpl in Hi; lia|].
    destruct i as [|i]; [reflexivity|].
    simpl in Hi. apply (IHp i). lia.
Qed.

(** C3, as the code has it: the tag checks no arity.  Whatever the number
    of values, it runs as with the values cut or filled with undefined to
    one less than the fragments; called with fragments and no value, [t]
    throws nothing and returns the fragments joined. *)
Theorem processTag_any_arity :
  (forall (processor : value W -> W -> outcome W) parts values w,
      processTag processor parts values w
      = processTag processor parts (fit (List.length parts - 1) values) w)
  /\ (forall p0 rest (w : W),
      t (p0 :: rest) [] w
      = (Normal (VStr (fold_right String.append "" (p0 :: rest))), w)).
Proof.
  split.
  - intros. apply processTag_fit.
  - intros p0 rest w. unfold t, processTag.
    rewrite t_loop_no_values by (simpl; lia). reflexivity.
Qed.

(** C8: a callable that returns the string of a tagged template of its own
    is resolved into the outer template: the inner string stands between
    the outer fragments.  So the template [<a>${() => t`<b>${1}</b>`}</a>]
    evaluates to [<a><b>1</b></a>]. *)
Theorem t_reentrant :
  (forall (pre post src : string) parts values (s : string) (w w' : W),
      t parts values w = (Normal (VStr s), w') ->
      t [pre; post] [VFun src (t parts values)] w
      = (Normal (VStr (pre ++ s ++ post)), w'))
  /\ (forall w : W,
      t ["<a>"; "</a>"] [VFun "() => t`<b>${1}</b>`" (t ["<b>"; "</b>"] [VNum (Int 1)])] w
      = (Normal (VStr "<a><b>1</b></a>"), w)).
Proof.
  assert (general : forall (pre post src : string) parts values (s : string) (w w' : W),
      t parts values w = (Normal (VStr s), w') ->
      t [pre; post] [VFun src (t parts values)] w
      = (Normal (VStr (pre ++ s ++ post)), w')).
  { intros pre post src parts values s w w' H.
    unfold t at 1. unfold processTag. cbn [List.length Nat.sub processTag_loop value_at nth].
    rewrite processValue_function, H.
    unfold js_or, part_at. cbn [ToBoolean nth].
    destruct (String.eqb_spec s "") as [->|Hne]; cbn [negb ToString];
      now rewrite append_assoc. }
  split; [exact general|].
  intros w.
  exact (general "<a>" "</a>" _ ["<b>"; "</b>"] [VNum (Int 1)] "<b>1</b>" w w eq_refl).
Qed.

End Tag.

Lemma processTag_follows_spec_witness :
  processTag processValue ["a"; "b"; "c"] [logs "x"; logs "y"] []
  = (Normal (VStr "axbyc"), ["x"; "y"]).
Proof.
  rewrite (processTag_follows_spec processValue ["a"; "b"; "c"] [logs "x"; logs "y"] []
             eq_refl).
  reflexivity.
Defined.

(** The claim C3 fails: two fragments with no value are not rejected. *)
Lemma t_accepts_wrong_arity :
  Nat.eqb (List.length ["a"; "b"]) (S (List.length (@nil (value unit)))) = false
  /\ t ["a"; "b"] [] tt = (Normal (VStr "ab"), tt).
Proof. split; reflexivity. Qed.

Lemma t_reentrant_witness :
  t ["<a>"; "</a>"] [VFun "inner" (t ["<b>"; "</b>"] [VNum (Int 1)])] tt
  = (Normal (VStr "<a><b>1</b></a>"), tt).
Proof.
  exact (proj1 (@t_reentrant unit) "<a>" "</a>" "inner" ["<b>"; "</b>"] [VNum (Int 1)]
           "<b>1</b>" tt tt eq_refl).
Defined.

(** ** Trees *)

Lemma fold_each_singleton (l : list Node) :
  fold_each (@List.app Node) [] (fun c => [c]) l = l.
Proof. induction l as [|x l IH]; simpl; [reflexivity | now rewrite IH]. Qed.

Lemma fold_each_max_le (h : Node -> nat) (l : list Node) (c : Node) :
  In c l -> h c <= fold_each Nat.max 0 h l.
Proof.
  induction l as [|x l IH]; simpl; [tauto|].
  intros [->|Hin]; [lia | specialize (IH Hin); lia].
Qed.

Lemma fold_maybe_max_le (h : Node -> nat) (o : option Node) (c : Node) :
  In c (fold_maybe [] (fun c => [c]) o) -> h c <= fold_maybe 0 h o.
Proof. destruct o; simpl; [intros [->|[]]; lia | tauto]. Qed.

Ltac split_children :=
  repeat match goal with
    | H : _ \/ _ |- _ => destruct H
    | H : In _ (_ ++ _)%list |- _ => apply in_app_or in H
    | H : In _ (_ :: _) |- _ => destruct H
    | H : In _ [] |- _ => destruct H
    | H : False |- _ => destruct H
    end.

Lemma height_unfold (n : Node) : height n = S (fold_children Nat.max 0 height n).
Proof. destruct n; reflexivity. Qed.

Lemma height_child (n c : Node) : In c (children n) -> height c < height n.
Proof.
  intros Hin. rewrite (height_unfold n).
  enough (height c <= fold_children Nat.max 0 height n) by lia.
  unfold children in Hin.
  destruct n; cbn [fold_children] in *; rewrite ?fold_each_singleton in Hin;
    split_children; subst;
    repeat match goal with
      | H : In _ (fold_maybe _ _ _) |- _ => apply (fold_maybe_max_le height) in H
      | H : In _ _ |- _ => apply (fold_each_max_le height) in H
      end; lia.
Qed.

Lemma height_positive (n : Node) : 1 <= height n.
Proof. rewrite height_unfold. lia. Qed.

(** Induction on a tree through its children *)
Lemma Node_children_ind (P : Node -> Prop) :
  (forall n, (forall c, In c (children n) -> P c) -> P n) -> forall n, P n.
Proof.
  intros step n.
  remember (height n) as h eqn:Hh.
  revert n Hh. induction h as [h IH] using lt_wf_ind. intros n ->.
  apply step. intros c Hc. apply (IH (height c)); [now apply height_child | reflexivity].
Qed.

Ltac child_in :=
  unfold children; cbn [fold_children fold_maybe];
  rewrite ?fold_each_singleton; rewrite ?in_app_iff; simpl; auto 10.

Lemma map_children_ext (f g : Node -> Node) (n : Node) :
  (forall c, In c (children n) -> f c = g c) -> map_children f n = map_children g n.
Proof.
  intros H.
  assert (Hl : forall l, (forall c, In c l -> In c (children n)) -> map f l = map g l).
  { intros l Hin. apply map_ext_in. intros c Hc. apply H, Hin, Hc. }
  assert (Ho : forall o, (forall c, o = Some c -> In c (children n)) ->
                         option_map f o = option_map g o).
  { intros [c|] Hin; [simpl; f_equal; apply H, Hin; reflexivity | reflexivity]. }
  destruct n; cbn [map_children]; try reflexivity;
    repeat match goal with
      | |- context [map f ?l] => rewrite (Hl l) by (intros; child_in)
      | |- context [option_map f ?o] => rewrite (Ho o) by (intros ? ->; child_in)
      | |- context [f ?c] => rewrite (H c) by child_in
      end; reflexivity.
Qed.

Lemma node_type_map_children (f : Node -> Node) (n : Node) :
  node_type (map_children f n) = node_type n.
Proof. destruct n; reflexivity. Qed.

(** ** The traversal *)

Lemma tree_of_bind {A B : Type} (m : traversed A) (k : A -> traversed B) (a : A) :
  tree_of m = Some a -> tree_of (bind m k) = tree_of (k a).
Proof.
  destruct m as [[a' out]|]; simpl; [|discriminate].
  intros [= ->]. now destruct (k a) as [[b out']|].
Qed.

Lemma tree_of_said {A : Type} (out : list string) (m : traversed A) :
  tree_of (said out m) = tree_of m.
Proof. now destruct m as [[a out']|]. Qed.

Lemma tree_of_each (f : Node -> traversed Node) (g : Node -> Node) (l : list Node) :
  (forall x, In x l -> tree_of (f x) = Some (g x)) ->
  tree_of (each f l) = Some (map g l).
Proof.
  induction l as [|x l IH]; intros H; [reflexivity|].
  cbn [each map].
  rewrite (tree_of_bind _ _ (g x)) by (apply H; now left).
  fold (each f l).
  rewrite (tree_of_bind _ _ (map g l)) by (apply IH; intros; apply H; now right).
  reflexivity.
Qed.

Lemma tree_of_maybe (f : Node -> traversed Node) (g : Node -> Node) (o : option Node) :
  (forall x, o = Some x -> tree_of (f x) = Some (g x)) ->
  tree_of (maybe f o) = Some (option_map g o).
Proof.
  destruct o as [x|]; intros H; [|reflexivity].
  cbn [maybe option_map]. now rewrite (tree_of_bind _ _ (g x)) by now apply H.
Qed.

(** Children that are each traversed into their image under [g] make the
    node with these images as children. *)
Lemma tree_of_traverse_children (f : Node -> traversed Node) (g : Node -> Node) (n : Node) :
  (forall c, In c (children n) -> tree_of (f c) = Some (g c)) ->
  tree_of (traverse_children f n) = Some (map_children g n).
Proof.
  intros H.
  destruct n; cbn [traverse_children map_children]; try reflexivity;
    repeat match goal with
      | |- tree_of (bind (each f ?l) ?k) = _ =>
          rewrite (tree_of_bind (each f l) k (map g l))
            by (apply tree_of_each; intros; apply H; child_in)
      | |- tree_of (bind (maybe f ?o) ?k) = _ =>
          rewrite (tree_of_bind (maybe f o) k (option_map g o))
            by (apply tree_of_maybe; intros ? ->; apply H; child_in)
      | |- tree_of (bind (f ?c) ?k) = _ =>
          rewrite (tree_of_bind (f c) k (g c)) by (apply H; child_in)
      end; reflexivity.
Qed.

Section Passes.
Variable tagName : string.
Variable labelName : option string.

Let vis : visitor := List.concat (plugins tagName labelName).

(** No visitor method is there for a node that is neither a template
    literal nor a labeled statement. *)
Lemma call_visitors_other (path : NodePath) :
  node_type (node path) <> "TemplateLiteral" ->
  node_type (node path) <> "LabeledStatement" ->
  call_visitors vis path = ([], None).
Proof.
  intros H1 H2. unfold vis, plugins.
  apply String.eqb_neq in H1, H2.
  rewrite String.eqb_sym in H1. rewrite String.eqb_sym in H2.
  destruct labelName; unfold transformTTL, transformLabelToReturn;
    cbn [List.concat List.app call_visitors]; rewrite H1, ?H2; reflexivity.
Qed.

Lemma call_visitors_literal (parent : Node) quasis es :
  call_visitors vis {| node := TemplateLiteral quasis es; parent := parent |}
  = ([], if is_tagged_template parent then None
         else Some (TaggedTemplateExpression (Identifier tagName)
                      (TemplateLiteral quasis es))).
Proof.
  unfold vis, plugins, is_tagged_template.
  destruct labelName; cbn;
    destruct (String.eqb (node_type parent) "TaggedTemplateExpression"); reflexivity.
Qed.

Lemma call_visitors_labeled (parent l b : Node) :
  exists out,
    call_visitors vis {| node := LabeledStatement l b; parent := parent |}
    = (out,
       if match labelName with
          | Some name => is_labeled name (LabeledStatement l b)
          | None => false
          end
       then Some (ReturnStatement (expression_of b))
       else None).
Proof.
  unfold vis, plugins, is_labeled.
  destruct labelName as [name|]; cbn.
  - destruct (same_name (name_of l) name); eexists; reflexivity.
  - eexists; reflexivity.
Qed.

Lemma traverse_S (fuel : nat) (parent n : Node) :
  traverse (S fuel) vis parent n
  = match call_visitors vis {| node := n; parent := parent |} with
    | (out, Some replacement) => said out (traverse fuel vis parent replacement)
    | (out, None) => said out (traverse_children (traverse fuel vis n) n)
    end.
Proof. reflexivity. Qed.

(** A node that no method is for has its children traversed. *)
Lemma traverse_other (fuel : nat) (parent n : Node) :
  node_type n <> "TemplateLiteral" ->
  node_type n <> "LabeledStatement" ->
  tree_of (traverse (S fuel) vis parent n)
  = tree_of (traverse_children (traverse fuel vis n) n).
Proof.
  intros H1 H2. rewrite traverse_S, call_visitors_other by assumption.
  apply tree_of_said.
Qed.

(** The traversal of a tree with both plugins, given fuel for three visits
    per level, ends with the tree that the specification describes. *)
Lemma traverse_rewrite_spec :
  forall fuel n parent,
    3 * height n <= fuel ->
    tree_of (traverse fuel vis parent n)
    = Some (rewrite_spec tagName labelName (is_tagged_template parent) n).
Proof.
  induction fuel as [fuel IH] using lt_wf_ind. intros n parent Hfuel.
  assert (Hchildren : forall f' under,
             f' < fuel -> 3 * height n <= f' + 3 ->
             tree_of (traverse_children (traverse f' vis under) n)
             = Some (map_children
                       (rewrite_spec tagName labelName (is_tagged_template under)) n)).
  { intros f' under Hlt Hle. apply tree_of_traverse_children. intros c Hc.
    apply IH; [lia|]. apply height_child in Hc. lia. }
  pose proof (height_positive n) as Hpos.
  destruct fuel as [|[|[|fuel]]]; [lia | lia | lia |].
  destruct n.
  3, 5-14, 16-22:
    rewrite traverse_other by (cbn; discriminate); apply Hchildren; lia.
  1, 2:
    rewrite traverse_other by (cbn; discriminate); apply Hchildren; lia.
  - (* LabeledStatement *)
    rewrite traverse_S.
    destruct (call_visitors_labeled parent n1 n2) as [out ->].
    cbn [rewrite_spec].
    destruct (match labelName with
              | Some name => is_labeled name (LabeledStatement n1 n2)
              | None => false
              end).
    + rewrite tree_of_said, traverse_other by (cbn; discriminate).
      cbn [traverse_children].
      rewrite (tree_of_bind _ _
                 (option_map (rewrite_spec tagName labelName false) (expression_of n2))).
      * destruct n2; reflexivity.
      * apply tree_of_maybe. intros x Hx.
        destruct n2; try discriminate. injection Hx as ->.
        apply (IH (S fuel)); [lia|].
        rewrite height_unfold in Hfuel. cbn [fold_children] in Hfuel.
        rewrite (height_unfold (ExpressionStatement x)) in Hfuel.
        cbn [fold_children] in Hfuel. lia.
    + rewrite tree_of_said. apply Hchildren; lia.
  - (* TemplateLiteral *)
    rewrite traverse_S, call_visitors_literal. cbn [rewrite_spec].
    destruct (is_tagged_template parent) eqn:Htag.
    + rewrite tree_of_said. apply (Hchildren (S (S fuel))); lia.
    + rewrite tree_of_said, traverse_other by (cbn; discriminate).
      cbn [traverse_children].
      rewrite (tree_of_bind _ _ (Identifier tagName))
        by (rewrite traverse_other by (cbn; discriminate); reflexivity).
      rewrite traverse_S, call_visitors_literal.
      change (is_tagged_template
                (TaggedTemplateExpression (Identifier tagName)
                   (TemplateLiteral quasis expressions))) with true.
      cbv iota.
      erewrite tree_of_bind; [reflexivity|].
      rewrite tree_of_said.
      apply (Hchildren fuel (TemplateLiteral quasis expressions)); lia.
Qed.

End Passes.

(** ** Counting nodes *)

Lemma fold_each_cons {A : Type} (op : A -> A -> A) (e : A) (f : Node -> A)
    (x : Node) (l : list Node) :
  fold_each op e f (x :: l) = op (f x) (fold_each op e f l).
Proof. reflexivity. Qed.

Lemma fold_each_add_le (g : Node -> nat) (l : list Node) (c : Node) :
  In c l -> g c <= fold_each Nat.add 0 g l.
Proof.
  induction l as [|x l IH]; simpl; [tauto|].
  intros [->|Hin]; [lia | specialize (IH Hin); lia].
Qed.

Lemma fold_maybe_add_le (g : Node -> nat) (o : option Node) (c : Node) :
  In c (fold_maybe [] (fun c => [c]) o) -> g c <= fold_maybe 0 g o.
Proof. destruct o; simpl; [intros [->|[]]; lia | tauto]. Qed.

Lemma fold_children_add_le (g : Node -> nat) (n c : Node) :
  In c (children n) -> g c <= fold_children Nat.add 0 g n.
Proof.
  intros Hin. unfold children in Hin.
  destruct n; cbn [fold_children] in *; rewrite ?fold_each_singleton in Hin;
    split_children; subst;
    repeat match goal with
      | H : In _ (fold_maybe _ _ _) |- _ => apply (fold_maybe_add_le g) in H
      | H : In _ _ |- _ => apply (fold_each_add_le g) in H
      end; lia.
Qed.

Section Counting.
Variable p : Node -> bool.

Let count (n : Node) : nat := List.length (filter p (nodes n)).
Let measure (l : list Node) : nat := List.length (filter p l).

Lemma measure_app (a b : list Node) : measure (a ++ b) = measure a + measure b.
Proof. unfold measure. now rewrite filter_app, length_app. Qed.

Lemma measure_fold_each (l : list Node) :
  measure (fold_each (@List.app Node) [] nodes l) = fold_each Nat.add 0 count l.
Proof.
  induction l as [|x l IH]; [reflexivity|].
  now rewrite !fold_each_cons, measure_app, IH.
Qed.

Lemma measure_fold_maybe (o : option Node) :
  measure (fold_maybe [] nodes o) = fold_maybe 0 count o.
Proof. destruct o; reflexivity. Qed.

(** The nodes counted in a tree are its root, if counted, and those
    counted in its children. *)
Lemma count_unfold (n : Node) :
  count n = (if p n then 1 else 0) + fold_children Nat.add 0 count n.
Proof.
  assert (H : measure (fold_children (@List.app Node) [] nodes n)
              = fold_children Nat.add 0 count n).
  { destruct n; cbn [fold_children];
      rewrite ?measure_app, ?measure_fold_each, ?measure_fold_maybe; reflexivity. }
  rewrite <- H. unfold count, measure.
  destruct n; cbn [nodes filter]; destruct (p _); reflexivity.
Qed.

Lemma count_zero_child (n c : Node) :
  count n = 0 -> In c (children n) -> count c = 0.
Proof.
  intros Hn Hc. rewrite count_unfold in Hn.
  apply (fold_children_add_le count) in Hc. lia.
Qed.

Lemma count_zero_root (n : Node) : count n = 0 -> p n = false.
Proof. rewrite count_unfold. destruct (p n); [discriminate | reflexivity]. Qed.

End Counting.

Lemma fold_children_ext {A : Type} (op : A -> A -> A) (e : A) (f g : Node -> A) (n : Node) :
  (forall c, In c (children n) -> f c = g c) ->
  fold_children op e f n = fold_children op e g n.
Proof.
  intros H.
  assert (Hl : forall l, (forall c, In c l -> In c (children n)) ->
                         fold_each op e f l = fold_each op e g l).
  { induction l as [|x l IH]; intros Hin; [reflexivity|].
    rewrite !fold_each_cons.
    rewrite (H x) by (apply Hin; now left).
    rewrite IH by (intros; apply Hin; now right). reflexivity. }
  assert (Ho : forall o, (forall c, o = Some c -> In c (children n)) ->
                         fold_maybe e f o = fold_maybe e g o).
  { intros [c|] Hin; [apply H, Hin; reflexivity | reflexivity]. }
  destruct n; cbn [fold_children]; try reflexivity;
    repeat match goal with
      | |- context [fold_each op e f ?l] => rewrite (Hl l) by (intros; child_in)
      | |- context [fold_maybe e f ?o] => rewrite (Ho o) by (intros ? ->; child_in)
      | |- context [f ?c] => rewrite (H c) by child_in
      end; reflexivity.
Qed.

Lemma fold_children_map_children {A : Type} (op : A -> A -> A) (e : A)
    (f : Node -> A) (g : Node -> Node) (n : Node) :
  fold_children op e f (map_children g n) = fold_children op e (fun c => f (g c)) n.
Proof.
  assert (Hl : forall l, fold_each op e f (map g l) = fold_each op e (fun c => f (g c)) l).
  { induction l as [|x l IH]; [reflexivity|].
    cbn [map]. now rewrite !fold_each_cons, IH. }
  assert (Ho : forall o, fold_maybe e f (option_map g o) = fold_maybe e (fun c => f (g c)) o).
  { now intros [c|]. }
  destruct n; cbn [map_children fold_children]; rewrite ?Hl, ?Ho; reflexivity.
Qed.

(** ** The two passes *)

Lemma insert_tags_other (tagName : string) (under : bool) (n : Node) :
  node_type n <> "TemplateLiteral" ->
  insert_tags tagName under n
  = map_children (insert_tags tagName (is_tagged_template n)) n.
Proof. destruct n; intros H; try reflexivity. now contradiction H. Qed.

(** Without a statement labeled [name], the label pass changes nothing. *)
Lemma rewrite_spec_no_label (tagName name : string) (n : Node) :
  forall under,
    count_labeled name n = 0 ->
    rewrite_spec tagName (Some name) under n = insert_tags tagName under n.
Proof.
  unfold insert_tags.
  induction n as [n IH] using Node_children_ind. intros under Hzero.
  assert (Hc : forall c b, In c (children n) ->
             rewrite_spec tagName (Some name) b c = rewrite_spec tagName None b c).
  { intros c b Hin. apply IH; [assumption|].
    exact (count_zero_child (is_labeled name) n c Hzero Hin). }
  pose proof (count_zero_root (is_labeled name) n Hzero) as Hroot.
  destruct n; cbn [rewrite_spec];
    try (apply map_children_ext; intros; now apply Hc).
  - rewrite Hroot. apply map_children_ext; intros; now apply Hc.
  - rewrite (map_ext_in _ (rewrite_spec tagName None false))
      by (intros; apply Hc; child_in).
    reflexivity.
Qed.

(** The tag insertion adds and removes no node of a type other than
    tagged template expressions and identifiers. *)
Lemma count_type_insert_tags (tagName type : string) (n : Node) :
  type <> "TaggedTemplateExpression" -> type <> "Identifier" ->
  forall under,
    count_type type (insert_tags tagName under n) = count_type type n.
Proof.
  intros Ht Hi. apply String.eqb_neq in Ht, Hi.
  rewrite String.eqb_sym in Ht. rewrite String.eqb_sym in Hi.
  induction n as [n IH] using Node_children_ind. intros under.
  assert (Hother : forall b,
             count_type type
               (map_children (insert_tags tagName b) n) = count_type type n).
  { intros b. unfold count_type.
    rewrite (count_unfold _ (map_children _ n)), (count_unfold _ n).
    rewrite node_type_map_children, fold_children_map_children.
    f_equal. apply fold_children_ext. intros c Hc. now apply IH. }
  destruct (String.eqb_spec (node_type n) "TemplateLiteral") as [Hlit|Hlit].
  - destruct n; try discriminate.
    specialize (Hother false). cbn [map_children] in Hother.
    unfold insert_tags in *. cbn [rewrite_spec].
    destruct under; [exact Hother|].
    rewrite <- Hother. unfold count_type.
    rewrite (count_unfold _ (TaggedTemplateExpression _ _)).
    cbn [fold_children node_type]. rewrite Ht.
    rewrite (count_unfold _ (Identifier _)). cbn [fold_children node_type].
    rewrite Hi. lia.
  - rewrite insert_tags_other by assumption. apply Hother.
Qed.

Lemma untagged_literals_unfold (under : bool) (n : Node) :
  untagged_literals under n
  = (if String.eqb (node_type n) "TemplateLiteral" && negb under then 1 else 0)
    + fold_children Nat.add 0 (untagged_literals (is_tagged_template n)) n.
Proof. destruct n; reflexivity. Qed.

Lemma fold_children_zero (f : Node -> nat) (n : Node) :
  (forall c, In c (children n) -> f c = 0) -> fold_children Nat.add 0 f n = 0.
Proof.
  intros H. rewrite (fold_children_ext _ _ f (fun _ => 0) n H).
  assert (Hl : forall l, fold_each Nat.add 0 (fun _ : Node => 0) l = 0).
  { induction l as [|x l IH]; [reflexivity | now rewrite fold_each_cons, IH]. }
  assert (Ho : forall o, fold_maybe 0 (fun _ : Node => 0) o = 0) by now intros [c|].
  destruct n; cbn [fold_children]; rewrite ?Hl, ?Ho; reflexivity.
Qed.

(** After the tag insertion no template literal is left without a tag. *)
Lemma insert_tags_complete (tagName : string) (n : Node) :
  forall under, untagged_literals under (insert_tags tagName under n) = 0.
Proof.
  induction n as [n IH] using Node_children_ind. intros under.
  assert (Hother : forall b under',
             String.eqb (node_type n) "TemplateLiteral" && negb under' = false ->
             untagged_literals under' (map_children (insert_tags tagName b) n)
             = fold_children Nat.add 0
                 (fun c => untagged_literals (is_tagged_template n)
                             (insert_tags tagName b c)) n).
  { intros b under' Hroot. rewrite untagged_literals_unfold.
    unfold is_tagged_template at 1.
    rewrite node_type_map_children, Hroot, fold_children_map_children.
    reflexivity. }
  destruct (String.eqb_spec (node_type n) "TemplateLiteral") as [Hlit|Hlit].
  - destruct n; try discriminate.
    assert (Hinner : untagged_literals true
                       (map_children (insert_tags tagName false)
                          (TemplateLiteral quasis expressions)) = 0).
    { rewrite Hother by reflexivity.
      apply fold_children_zero. intros c Hc. now apply IH. }
    cbn [map_children] in Hinner.
    unfold insert_tags in *. cbn [rewrite_spec].
    destruct under; [exact Hinner|].
    rewrite untagged_literals_unfold. cbn [fold_children node_type].
    change (is_tagged_template (TaggedTemplateExpression _ _)) with true.
    rewrite Hinner. reflexivity.
  - rewrite insert_tags_other by assumption.
    rewrite Hother by reflexivity.
    apply fold_children_zero. intros c Hc. now apply IH.
Qed.

Lemma plugins_tag_only (tagName : string) :
  List.concat (plugins tagName None) = transformTTL tagName.
Proof. reflexivity. Qed.

(** C6: the traversal with the tag-insertion plugin, given fuel for three
    visits per level, ends with the tree in which every template literal
    whose parent is not a tagged template expression is tagged with the tag
    name, the expressions inside rewritten alike; a template literal that
    is the quasi of a tagged template expression gets no tag, and a node of
    another type keeps its type and fields.  No template literal is left
    whose parent is not a tagged template expression. *)
Theorem transformTTL_inserts_tags (tagName : string) :
  (forall fuel n parent,
      3 * height n <= fuel ->
      tree_of (traverse fuel (transformTTL tagName) parent n)
      = Some (insert_tags tagName (is_tagged_template parent) n))
  /\ (forall quasis es,
      insert_tags tagName false (TemplateLiteral quasis es)
      = TaggedTemplateExpression (Identifier tagName)
          (TemplateLiteral quasis (map (insert_tags tagName false) es)))
  /\ (forall under tag quasis es,
      insert_tags tagName under (TaggedTemplateExpression tag (TemplateLiteral quasis es))
      = TaggedTemplateExpression (insert_tags tagName true tag)
          (TemplateLiteral quasis (map (insert_tags tagName false) es)))
  /\ (forall under n,
      node_type n <> "TemplateLiteral" ->
      insert_tags tagName under n
      = map_children (insert_tags tagName (is_tagged_template n)) n)
  /\ (forall under n, untagged_literals under (insert_tags tagName under n) = 0).
Proof.
  repeat split.
  - intros fuel n parent Hfuel. rewrite <- plugins_tag_only.
    now apply traverse_rewrite_spec.
  - intros under n. apply insert_tags_other.
  - intros under n. apply insert_tags_complete.
Qed.

Lemma transformTTL_inserts_tags_witness :
  tree_of (traverse 6 (transformTTL "t") (Program []) item_literal) = Some item_tagged.
Proof.
  exact (proj1 (transformTTL_inserts_tags "t") 6 item_literal (Program [])
           (le_n 6)).
Defined.

Section CompileProperties.
Variable readFileSync : string -> completion string Error.
Variable parse : string -> completion Node Error.

(** The compiled function of a file that is read and parsed: its body is
    the program after both passes, inside [with (context)]. *)
Lemma fromFile_rewrite_spec (templatePath content : string) (program : Node) (fuel : nat) :
  readFileSync templatePath = Normal content ->
  parse content = Normal (File program) ->
  3 * height program <= fuel ->
  tree_of (fromFile readFileSync parse fuel templatePath)
  = Some (Normal (new_Function "context"
            [WithStatement (Identifier "context")
               (BlockStatement
                  (code_of (File (rewrite_spec "t" (Some "template") false program))))])).
Proof.
  intros Hread Hparse Hfuel. unfold fromFile, transformSync.
  rewrite Hread, Hparse.
  pose proof (traverse_rewrite_spec "t" (Some "template") fuel program (File program) Hfuel)
    as Htree.
  change (is_tagged_template (File program)) with false in Htree.
  set (rewritten := rewrite_spec "t" (Some "template") false program) in *.
  assert (Hfile : tree_of (traverse_children
                             (traverse fuel
                                (List.concat [transformTTL TAG_NAME;
                                              transformLabelToReturn "template"])
                                (File program)) (File program))
                  = Some (File rewritten)).
  { cbn [traverse_children]. now rewrite (tree_of_bind _ _ rewritten) by exact Htree. }
  rewrite (tree_of_bind _ _ (Normal (File rewritten)))
    by now rewrite (tree_of_bind _ _ (File rewritten)) by exact Hfile.
  reflexivity.
Qed.


(** C7, as the code has it: a source with no statement labeled template
    compiles without an error.  The compiled function has the source with
    its template literals tagged as its body, and no return statement that
    the source does not have. *)
Theorem fromFile_without_label (templatePath content : string) (program : Node) (fuel : nat) :
  readFileSync templatePath = Normal content ->
  parse content = Normal (File program) ->
  count_labeled "template" program = 0 ->
  3 * height program <= fuel ->
  tree_of (fromFile readFileSync parse fuel templatePath)
  = Some (Normal (new_Function "context"
            [WithStatement (Identifier "context")
               (BlockStatement (code_of (File (insert_tags "t" false program))))]))
  /\ count_type "ReturnStatement" (insert_tags "t" false program)
     = count_type "ReturnStatement" program.
Proof.
  intros Hread Hparse Hzero Hfuel. split.
  - rewrite (fromFile_rewrite_spec templatePath content program fuel) by assumption.
    now rewrite rewrite_spec_no_label.
  - apply count_type_insert_tags; discriminate.
Qed.

End CompileProperties.

Lemma fromFile_without_label_witness :
  tree_of (fromFile (one_file "page.js" "`hello ${name}`;")
             (parse_as "`hello ${name}`;" unlabeled_js) 12 "page.js")
  = Some (Normal (new_Function "context" unlabeled_js_compiled))
  /\ count_type "ReturnStatement"
       (insert_tags "t" false
          (Program [ExpressionStatement (TemplateLiteral ["hello "; ""] [Identifier "name"])]))
     = 0.
Proof.
  exact (fromFile_without_label
           (one_file "page.js" "`hello ${name}`;")
           (parse_as "`hello ${name}`;" unlabeled_js)
           "page.js" "`hello ${name}`;"
           (Program [ExpressionStatement (TemplateLiteral ["hello "; ""] [Identifier "name"])])
           12 eq_refl eq_refl eq_refl (le_n 12)).
Defined.

(** The claim C7 fails: the source [`hello ${name}`;], which has no labeled
    statement, compiles into a function, and nothing is thrown. *)
Lemma fromFile_compiles_without_label :
  count_labeled "template" unlabeled_js = 0
  /\ fromFile (one_file "page.js" "`hello ${name}`;")
       (parse_as "`hello ${name}`;" unlabeled_js) 12 "page.js"
     = Some (Normal (new_Function "context" unlabeled_js_compiled), []).
Proof. split; reflexivity. Qed.

(** [template.js] compiles into a function that returns its template,
    every literal tagged with [t]; the label is written to the console. *)
Lemma fromFile_template_js :
  fromFile (one_file "template.js" "...") (parse_as "..." template_js) 27 "template.js"
  = Some (Normal (new_Function "context" template_js_compiled), ["template"]).
Proof. vm_compute. reflexivity. Qed.

(** * More of the program *)

(** ** The basic tag *)

Section BasicTagProperties.
Context {W : Type}.
Implicit Types (values : list (value W)) (w : W).



Lemma processTag_loop_identity (parts : list string) values :
  forall n i result w,
    processTag_loop (fun v w => (Normal v, w)) parts values n i result w
    = (Normal (VStr (basicTag_loop parts values n i result)), w).
Proof. induction n as [|n IH]; intros i result w; [reflexivity | apply IH]. Qed.

(** X2: [basicTag] is the tag that [processTag] makes of the processor that
    returns its value as it is, whatever the numbers of parts and values. *)
Theorem processTag_identity_is_basicTag (parts : list string) values w :
  processTag (fun v w => (Normal v, w)) parts values w
  = (Normal (basicTag parts values), w).
Proof.
  unfold processTag, basicTag. destruct parts as [|p0 rest]; [reflexivity|].
  apply processTag_loop_identity.
Qed.

(** A primitive other than null goes through the processor as [v || '']. *)
Lemma processValue_primitive (v : value W) w :
  is_primitive v = true -> v <> VNull -> processValue v w = (Normal (blank v), w).
Proof.
  intros Hp Hn. destruct v; try discriminate; try reflexivity. congruence.
Qed.

Lemma value_at_map_blank values (j : nat) :
  j < List.length values ->
  value_at (map blank values) j = blank (value_at values j).
Proof.
  intros Hj. unfold value_at.
  rewrite (nth_indep (map blank values) VUndefined (blank VUndefined))
    by now rewrite length_map.
  apply map_nth.
Qed.

Lemma t_loop_primitives (parts : list string) values :
  Forall (fun v => is_primitive v = true /\ v <> VNull) values ->
  forall n i result w,
    1 <= i -> i - 1 + n <= List.length values ->
    processTag_loop processValue parts values n i result w
    = (Normal (VStr (basicTag_loop parts (map blank values) n i result)), w).
Proof.
  intros Hall. induction n as [|n IH]; intros i result w Hi Hn; [reflexivity|].
  cbn [processTag_loop basicTag_loop].
  assert (Hin : In (value_at values (i - 1)) values) by (apply nth_In; lia).
  rewrite Forall_forall in Hall. destruct (Hall _ Hin) as [Hp Hnull].
  rewrite processValue_primitive by assumption.
  rewrite value_at_map_blank by lia.
  apply IH; lia.
Qed.

(** X3: on primitive values other than null, with a value for every hole,
    [t] gives what [basicTag] gives once the falsy values (undefined, false,
    0, NaN, the empty string) are replaced by the empty string. *)
Theorem t_is_basicTag_on_primitives (parts : list string) values w :
  Forall (fun v => is_primitive v = true /\ v <> VNull) values ->
  List.length parts <= S (List.length values) ->
  t parts values w = (Normal (basicTag parts (map blank values)), w).
Proof.
  intros Hall Hlen. unfold t, processTag, basicTag.
  destruct parts as [|p0 rest]; [reflexivity|].
  apply t_loop_primitives; [assumption | lia | simpl in *; lia].
Qed.

(** X4: what the value processor returns is truthy or the empty string:
    never undefined, null, false, 0 or NaN. *)
Theorem processValue_never_falsy (v : value W) w (r : value W) w' :
  processValue v w = (Normal r, w') -> r = VStr "" \/ ToBoolean r = true.
Proof.
  assert (Hor : forall x : value W, js_or x (VStr "") = VStr "" \/
                                    ToBoolean (js_or x (VStr "")) = true).
  { intros x. unfold js_or. destruct (ToBoolean x) eqn:Hx; [now right | now left]. }
  unfold processValue.
  destruct v; cbn [typeof String.eqb Ascii.eqb Bool.eqb Array_isArray or_empty];
    try (intros [= <- _]; apply Hor).
  cbn [Call]. destruct (call w) as [[x|e] w1]; cbn [or_empty]; [|discriminate].
  intros [= <- _]. apply Hor.
Qed.


End BasicTagProperties.

(** ** More on the template tag *)

Section TagProperties.
Context {W : Type}.
Implicit Types (values : list (value W)) (w : W).






(** X8: a callable that returns a falsy value, as a function whose [if] has
    no [else] does, leaves nothing between the parts around it. *)
Theorem t_omits_falsy_result (pre post src : string) call w (r : value W) w' :
  call w = (Normal r, w') ->
  ToBoolean r = false ->
  t [pre; post] [VFun src call] w = (Normal (VStr (pre ++ post)), w').
Proof.
  intros Hcall Hfalsy. unfold t, processTag.
  cbn [List.length Nat.sub processTag_loop value_at nth].
  rewrite processValue_function, Hcall. unfold js_or. rewrite Hfalsy.
  cbn [ToString part_at nth]. now rewrite append_empty_r.
Qed.

End TagProperties.


Lemma t_is_basicTag_on_primitives_witness :
  t ["a"; "b"; "c"] [VNum (Int 0); VStr "x"] tt = (Normal (VStr "abxc"), tt).
Proof.
  refine (t_is_basicTag_on_primitives ["a"; "b"; "c"] [VNum (Int 0); VStr "x"] tt _ _).
  - repeat constructor; discriminate.
  - apply le_n.
Defined.

Lemma processValue_never_falsy_witness :
  (VStr "" : value unit) = VStr "" \/ ToBoolean (VStr "" : value unit) = true.
Proof.
  exact (processValue_never_falsy (VNum (Int 0)) tt (VStr "") tt eq_refl).
Defined.




Lemma t_omits_falsy_result_witness :
  t ["<header>"; "</header>"] [returns_undefined] tt
  = (Normal (VStr "<header></header>"), tt).
Proof.
  exact (t_omits_falsy_result "<header>" "</header>" "() => undefined"
           (fun w => (Normal VUndefined, w)) tt VUndefined tt eq_refl eq_refl).
Defined.

(** ** More on the two passes *)

(** Induction on a tree through all the smaller trees *)
Lemma Node_height_ind (P : Node -> Prop) :
  (forall n, (forall m, height m < height n -> P m) -> P n) -> forall n, P n.
Proof.
  intros step n.
  remember (height n) as h eqn:Hh.
  revert n Hh. induction h as [h IH] using lt_wf_ind. intros n ->.
  apply step. intros m Hm. now apply (IH (height m)).
Qed.

Lemma map_children_compose (f g : Node -> Node) (n : Node) :
  map_children f (map_children g n) = map_children (fun c => f (g c)) n.
Proof.
  destruct n; cbn [map_children]; rewrite ?map_map;
    repeat match goal with
      | |- context [option_map f (option_map g ?o)] => destruct o; cbn [option_map]
      end; reflexivity.
Qed.

Lemma fold_children_add_split (f g : Node -> nat) (n : Node) :
  fold_children Nat.add 0 (fun c => f c + g c) n
  = fold_children Nat.add 0 f n + fold_children Nat.add 0 g n.
Proof.
  assert (Hl : forall l, fold_each Nat.add 0 (fun c => f c + g c) l
                         = fold_each Nat.add 0 f l + fold_each Nat.add 0 g l).
  { induction l as [|x l IH]; [reflexivity|]. rewrite !fold_each_cons, IH. lia. }
  assert (Ho : forall o, fold_maybe 0 (fun c => f c + g c) o
                         = fold_maybe 0 f o + fold_maybe 0 g o) by now intros [c|].
  destruct n; cbn [fold_children]; rewrite ?Hl, ?Ho; lia.
Qed.

Lemma is_tagged_template_map_children (f : Node -> Node) (n : Node) :
  is_tagged_template (map_children f n) = is_tagged_template n.
Proof. unfold is_tagged_template. now rewrite node_type_map_children. Qed.

Lemma replaced_labeled (labelName : option string) (n : Node) :
  replaced labelName n = true -> exists l b, n = LabeledStatement l b.
Proof.
  unfold replaced, is_labeled. destruct labelName; [|discriminate].
  destruct n; cbn; try discriminate. intros _. now eexists _, _.
Qed.

Lemma replaced_unlabeled (labelName : option string) (n : Node) :
  node_type n <> "LabeledStatement" -> replaced labelName n = false.
Proof.
  intros H. destruct (replaced labelName n) eqn:Hrep; [|reflexivity].
  destruct (replaced_labeled _ _ Hrep) as (l & b & ->). now contradiction H.
Qed.

Lemma replaced_by_name (labelName : option string) (l b l' b' : Node) :
  name_of l' = name_of l ->
  replaced labelName (LabeledStatement l' b') = replaced labelName (LabeledStatement l b).
Proof.
  intros H. unfold replaced, is_labeled. destruct labelName; [|reflexivity].
  cbn. now rewrite H.
Qed.

Section BothPasses.
Variable tagName : string.
Variable labelName : option string.

Abbreviation rw := (rewrite_spec tagName labelName).

Lemma rewrite_spec_replaced (under : bool) (l b : Node) :
  replaced labelName (LabeledStatement l b) = true ->
  rw under (LabeledStatement l b)
  = ReturnStatement (option_map (rw false) (expression_of b)).
Proof.
  cbn [rewrite_spec]. unfold replaced. intros ->. now destruct b.
Qed.

Lemma rewrite_spec_other (under : bool) (n : Node) :
  node_type n <> "TemplateLiteral" -> replaced labelName n = false ->
  rw under n = map_children (rw (is_tagged_template n)) n.
Proof.
  intros Hlit Hrep.
  destruct n; try reflexivity.
  - cbn [rewrite_spec]. unfold replaced in Hrep. now rewrite Hrep.
  - now contradiction Hlit.
Qed.

Lemma rewrite_spec_literal (under : bool) quasis es :
  rw under (TemplateLiteral quasis es)
  = if under then TemplateLiteral quasis (map (rw false) es)
    else TaggedTemplateExpression (Identifier tagName)
           (TemplateLiteral quasis (map (rw false) es)).
Proof. reflexivity. Qed.

(** The three shapes of a node to rewrite *)
Lemma rewrite_spec_cases (n : Node) :
  (exists quasis es, n = TemplateLiteral quasis es)
  \/ (exists l b, n = LabeledStatement l b /\ replaced labelName n = true)
  \/ (node_type n <> "TemplateLiteral" /\ replaced labelName n = false).
Proof.
  destruct (replaced labelName n) eqn:Hrep.
  - right; left. destruct (replaced_labeled _ n Hrep) as (l & b & ->). now exists l, b.
  - destruct n; try (right; right; split; [discriminate | reflexivity]).
    left. now eexists _, _.
Qed.

Lemma name_of_rewrite_spec (under : bool) (n : Node) :
  name_of (rw under n) = name_of n.
Proof.
  destruct (rewrite_spec_cases n) as [(q & es & ->)|[(l & b & -> & Hrep)|[Hlit Hrep]]].
  - rewrite rewrite_spec_literal. now destruct under.
  - now rewrite rewrite_spec_replaced.
  - rewrite rewrite_spec_other by assumption. now destruct n.
Qed.

Lemma replaced_map_children (n : Node) :
  replaced labelName (map_children (rw (is_tagged_template n)) n) = replaced labelName n.
Proof.
  destruct n;
    try (rewrite !replaced_unlabeled by (cbn; discriminate); reflexivity).
  cbn [map_children]. apply replaced_by_name, name_of_rewrite_spec.
Qed.

Lemma height_expression_of (b x : Node) :
  expression_of b = Some x -> height x < height b.
Proof.
  destruct b; try discriminate. intros [= ->].
  apply height_child. child_in.
Qed.

Lemma height_body (l b : Node) : height b < height (LabeledStatement l b).
Proof. apply height_child. child_in. Qed.

(** Rewriting a second time changes nothing. *)
Lemma rewrite_spec_idempotent (n : Node) :
  forall under, rw under (rw under n) = rw under n.
Proof.
  induction n as [n IH] using Node_height_ind. intros under.
  destruct (rewrite_spec_cases n) as [(q & es & ->)|[(l & b & -> & Hrep)|[Hlit Hrep]]].
  - assert (Hes : map (rw false) (map (rw false) es) = map (rw false) es).
    { rewrite map_map. apply map_ext_in. intros e He. apply IH.
      apply height_child. child_in. }
    rewrite rewrite_spec_literal. destruct under.
    + now rewrite rewrite_spec_literal, Hes.
    + rewrite rewrite_spec_other;
        [|discriminate|apply replaced_unlabeled; discriminate].
      cbn [map_children].
      change (is_tagged_template (TaggedTemplateExpression _ _)) with true.
      change (rw true (Identifier tagName)) with (Identifier tagName).
      now rewrite rewrite_spec_literal, Hes.
  - rewrite rewrite_spec_replaced by assumption.
    rewrite rewrite_spec_other;
      [|discriminate|apply replaced_unlabeled; discriminate].
    cbn [map_children].
    change (is_tagged_template (ReturnStatement _)) with false.
    destruct (expression_of b) as [x|] eqn:Hx; [|reflexivity].
    cbn [option_map]. rewrite IH; [reflexivity|].
    apply height_expression_of in Hx. pose proof (height_body l b). lia.
  - rewrite (rewrite_spec_other under n) by assumption.
    rewrite rewrite_spec_other;
      [|now rewrite node_type_map_children|now rewrite replaced_map_children].
    rewrite is_tagged_template_map_children.
    rewrite map_children_compose. apply map_children_ext.
    intros c Hc. apply IH. now apply height_child.
Qed.


End BothPasses.


(** X10: the passes are idempotent: a second traversal of a traversed
    tree, by the same plugins under the same parent, returns the tree as it
    is. *)
Theorem traverse_twice (tagName : string) (labelName : option string)
    (fuel fuel' : nat) (parent n n' : Node) :
  3 * height n <= fuel ->
  tree_of (traverse fuel (List.concat (plugins tagName labelName)) parent n) = Some n' ->
  3 * height n' <= fuel' ->
  tree_of (traverse fuel' (List.concat (plugins tagName labelName)) parent n') = Some n'.
Proof.
  intros Hfuel Hfirst Hfuel'.
  rewrite traverse_rewrite_spec in Hfirst by assumption.
  injection Hfirst as <-.
  rewrite traverse_rewrite_spec by assumption.
  now rewrite rewrite_spec_idempotent.
Qed.

(** X11: what the passes of [fromFile] make of a labeled statement.  Under
    the label of the pass, an expression statement becomes the return of its
    rewritten expression; any other statement becomes a return of nothing,
    its body dropped; under another label the statement stays, its label
    and body rewritten. *)
Theorem traverse_labeled_statement (tagName labelName : string)
    (fuel : nat) (parent l b : Node) :
  3 * height (LabeledStatement l b) <= fuel ->
  let vis := List.concat [transformTTL tagName; transformLabelToReturn labelName] in
  let rw := rewrite_spec tagName (Some labelName) false in
  (name_of l = Some labelName ->
   forall e, b = ExpressionStatement e ->
   tree_of (traverse fuel vis parent (LabeledStatement l b))
   = Some (ReturnStatement (Some (rw e))))
  /\ (name_of l = Some labelName ->
      expression_of b = None ->
      tree_of (traverse fuel vis parent (LabeledStatement l b))
      = Some (ReturnStatement None))
  /\ (name_of l <> Some labelName ->
      tree_of (traverse fuel vis parent (LabeledStatement l b))
      = Some (LabeledStatement (rw l) (rw b))).
Proof.
  intros Hfuel vis rw.
  pose proof (traverse_rewrite_spec tagName (Some labelName) fuel
                (LabeledStatement l b) parent Hfuel) as Htree.
  change (List.concat (plugins tagName (Some labelName))) with vis in Htree.
  rewrite Htree. cbn [rewrite_spec]. unfold is_labeled. cbn [label_of and_then].
  repeat split.
  - intros -> e ->. cbn [same_name]. now rewrite String.eqb_refl.
  - intros -> Hb. cbn [same_name]. rewrite String.eqb_refl.
    now destruct b.
  - intros Hname. destruct (name_of l) as [x|]; cbn [same_name]; [|reflexivity].
    destruct (String.eqb_spec x labelName) as [->|Hne]; [now contradiction Hname | reflexivity].
Qed.

(** The tag insertion adds one tagged template expression for each
    template literal that had no tag, and no other. *)
Lemma insert_tags_adds_tags (tagName : string) (n : Node) :
  forall under,
    count_type "TaggedTemplateExpression" (insert_tags tagName under n)
    = count_type "TaggedTemplateExpression" n + untagged_literals under n.
Proof.
  unfold insert_tags, count_type.
  induction n as [n IH] using Node_height_ind. intros under.
  set (tagged := fun m => String.eqb (node_type m) "TaggedTemplateExpression") in *.
  assert (Hsum : forall b,
             fold_children Nat.add 0
               (fun c => List.length (filter tagged (nodes (rewrite_spec tagName None b c)))) n
             = fold_children Nat.add 0 (fun c => List.length (filter tagged (nodes c))) n
               + fold_children Nat.add 0 (untagged_literals b) n).
  { intros b. rewrite <- fold_children_add_split. apply fold_children_ext.
    intros c Hc. apply IH. now apply height_child. }
  destruct (rewrite_spec_cases None n) as [(q & es & ->)|[(l & b & -> & Hrep)|[Hlit Hrep]]].
  - specialize (Hsum false). cbn [fold_children] in Hsum.
    assert (Hinner : List.length (filter tagged
                       (nodes (TemplateLiteral q (map (rewrite_spec tagName None false) es))))
                     = fold_each Nat.add 0 (fun c => List.length (filter tagged (nodes c))) es
                       + fold_each Nat.add 0 (untagged_literals false) es).
    { rewrite count_unfold. cbn [fold_children].
      change (fold_each Nat.add 0 ?f (map ?g es))
        with (fold_children Nat.add 0 f (map_children g (TemplateLiteral q es))).
      rewrite fold_children_map_children. cbn [fold_children]. exact Hsum. }
    rewrite rewrite_spec_literal.
    rewrite (count_unfold tagged (TemplateLiteral q es)).
    rewrite (untagged_literals_unfold under (TemplateLiteral q es)).
    cbn [fold_children]. change (is_tagged_template (TemplateLiteral q es)) with false.
    destruct under.
    + rewrite Hinner. cbn. lia.
    + rewrite count_unfold. cbn [fold_children].
      rewrite (count_unfold tagged (Identifier tagName)). cbn [fold_children].
      rewrite Hinner. cbn. lia.
  - discriminate.
  - rewrite rewrite_spec_other by assumption.
    rewrite (count_unfold tagged (map_children _ n)), (count_unfold tagged n).
    rewrite (untagged_literals_unfold under n).
    unfold tagged at 1. rewrite node_type_map_children. fold (tagged n).
    rewrite fold_children_map_children, Hsum.
    apply String.eqb_neq in Hlit. rewrite Hlit. cbn [andb]. lia.
Qed.

Section MoreCompileProperties.
Variable readFileSync : string -> completion string Error.
Variable parse : string -> completion Node Error.



End MoreCompileProperties.

Lemma traverse_twice_witness :
  tree_of (traverse 9 (List.concat (plugins "t" None)) (Program []) item_tagged)
  = Some item_tagged.
Proof.
  exact (traverse_twice "t" None 6 9 (Program []) item_literal item_tagged
           (le_n 6) eq_refl (le_n 9)).
Defined.

Lemma traverse_labeled_statement_witness :
  tree_of (traverse 15
             (List.concat [transformTTL "t"; transformLabelToReturn "template"])
             (Program [])
             (LabeledStatement (Identifier "template")
                (BlockStatement [ExpressionStatement item_literal])))
  = Some (ReturnStatement None).
Proof.
  exact (proj1 (proj2
           (traverse_labeled_statement "t" "template" 15 (Program [])
              (Identifier "template")
              (BlockStatement [ExpressionStatement item_literal]) (le_n 15)))
           eq_refl eq_refl).
Defined.


(** ** The traversal, with its console lines *)

Lemma bind_some {A B : Type} (m : traversed A) (k : A -> traversed B)
    (a : A) (out : list string) (b : B) (out' : list string) :
  m = Some (a, out) -> k a = Some (b, out') -> bind m k = Some (b, (out ++ out')%list).
Proof. intros -> H. cbn. now rewrite H. Qed.

Lemma said_some {A : Type} (out : list string) (m : traversed A) (a : A) (out' : list string) :
  m = Some (a, out') -> said out m = Some (a, (out ++ out')%list).
Proof. now intros ->. Qed.

Lemma each_some (f : Node -> traversed Node) (g : Node -> Node)
    (h : Node -> list string) (l : list Node) :
  (forall x, In x l -> f x = Some (g x, h x)) ->
  each f l = Some (map g l, fold_each (@List.app string) [] h l).
Proof.
  induction l as [|x l IH]; intros H; [reflexivity|].
  cbn [each map]. fold (each f l).
  rewrite (H x) by now left.
  rewrite IH by (intros; apply H; now right).
  cbn [bind ret]. now rewrite app_nil_r.
Qed.

Lemma maybe_some (f : Node -> traversed Node) (g : Node -> Node)
    (h : Node -> list string) (o : option Node) :
  (forall x, o = Some x -> f x = Some (g x, h x)) ->
  maybe f o = Some (option_map g o, fold_maybe [] h o).
Proof.
  destruct o as [x|]; intros H; [|reflexivity].
  cbn [maybe]. rewrite (H x) by reflexivity. cbn. now rewrite app_nil_r.
Qed.

Lemma traverse_children_some (f : Node -> traversed Node) (g : Node -> Node)
    (h : Node -> list string) (n : Node) :
  (forall c, In c (children n) -> f c = Some (g c, h c)) ->
  traverse_children f n
  = Some (map_children g n, fold_children (@List.app string) [] h n).
Proof.
  intros H.
  destruct n; cbn [traverse_children map_children fold_children]; try reflexivity;
    repeat match goal with
      | |- context [each f ?l] =>
          rewrite (each_some f g h l) by (intros; apply H; child_in)
      | |- context [maybe f ?o] =>
          rewrite (maybe_some f g h o) by (intros ? ->; apply H; child_in)
      | |- context [f ?c] => rewrite (H c) by child_in
      end;
    cbn [bind ret]; rewrite ?app_nil_r; reflexivity.
Qed.

Lemma traverse_step (vis : visitor) (tagName labelName : option string)
    (fuel : nat) (parent n : Node) :
  (forall path, call_visitors vis path = visit_spec tagName labelName path) ->
  traverse (S fuel) vis parent n
  = match visit_spec tagName labelName {| node := n; parent := parent |} with
    | (out, Some replacement) => said out (traverse fuel vis parent replacement)
    | (out, None) => said out (traverse_children (traverse fuel vis n) n)
    end.
Proof. intros vis_spec. cbn [traverse]. now rewrite vis_spec. Qed.

(** The traversal by visitors that act as [visit_spec], given fuel for three
    visits per level, ends with the rewritten tree and the console lines of
    the labels. *)
Lemma traverse_rewrite_with (vis : visitor) (tagName labelName : option string) :
  (forall path, call_visitors vis path = visit_spec tagName labelName path) ->
  forall fuel n above,
    3 * height n <= fuel ->
    traverse fuel vis above n
    = Some (rewrite_with tagName labelName (is_tagged_template above) n,
            console_spec labelName n).
Proof.
  intros vis_spec.
  induction fuel as [fuel IH] using lt_wf_ind. intros n above Hfuel.
  assert (Hchildren : forall f' under,
             f' < fuel -> 3 * height n <= f' + 3 ->
             traverse_children (traverse f' vis under) n
             = Some (map_children
                       (rewrite_with tagName labelName (is_tagged_template under)) n,
                     fold_children (@List.app string) [] (console_spec labelName) n)).
  { intros f' under Hlt Hle. apply traverse_children_some. intros c Hc.
    apply IH; [lia|]. apply height_child in Hc. lia. }
  pose proof (height_positive n) as Hpos.
  destruct fuel as [|[|[|fuel]]]; [lia | lia | lia |].
  destruct n.
  3, 5-14, 16-22:
    rewrite (traverse_step vis tagName labelName) by assumption; cbn [visit_spec node];
    erewrite said_some by (apply Hchildren; lia); reflexivity.
  1, 2:
    rewrite (traverse_step vis tagName labelName) by assumption; cbn [visit_spec node];
    erewrite said_some by (apply Hchildren; lia); reflexivity.
  - (* LabeledStatement *)
    rewrite (traverse_step vis tagName labelName) by assumption.
    cbn [visit_spec node rewrite_with console_spec].
    specialize (Hchildren (S (S fuel)) (LabeledStatement n1 n2)).
    change (is_tagged_template (LabeledStatement n1 n2)) with false in Hchildren.
    unfold replaced, is_labeled. cbn [label_of and_then].
    destruct labelName as [name|].
    + destruct (same_name (name_of n1) name).
      * erewrite said_some; [reflexivity|].
        rewrite (traverse_step vis tagName (Some name)) by assumption.
        cbn [visit_spec node traverse_children].
        erewrite said_some; [reflexivity|].
        erewrite bind_some; [| apply (maybe_some _
             (rewrite_with tagName (Some name) false) (console_spec (Some name))) | reflexivity].
        -- rewrite app_nil_r. now destruct n2.
        -- intros x Hx. destruct n2; try discriminate. injection Hx as ->.
           apply (IH (S fuel)); [lia|].
           rewrite height_unfold in Hfuel. cbn [fold_children] in Hfuel.
           rewrite (height_unfold (ExpressionStatement x)) in Hfuel.
           cbn [fold_children] in Hfuel. lia.
      * erewrite said_some; [reflexivity|]. apply Hchildren; lia.
    + erewrite said_some; [reflexivity|]. apply Hchildren; lia.
  - (* TemplateLiteral *)
    rewrite (traverse_step vis tagName labelName) by assumption.
    cbn [visit_spec node parent rewrite_with console_spec].
    pose proof (Hchildren (S (S fuel)) (TemplateLiteral quasis expressions)) as Hsame.
    specialize (Hchildren fuel (TemplateLiteral quasis expressions)).
    change (is_tagged_template (TemplateLiteral quasis expressions)) with false in *.
    cbn [map_children fold_children] in *.
    destruct tagName as [tag|].
    + destruct (is_tagged_template above) eqn:Hunder.
      * erewrite said_some; [reflexivity|]. apply Hsame; lia.
      * erewrite said_some; [reflexivity|].
        rewrite (traverse_step vis (Some tag) labelName) by assumption.
        cbn [visit_spec node traverse_children].
        erewrite said_some; [reflexivity|].
        rewrite (traverse_step vis (Some tag) labelName fuel _ (Identifier tag))
          by assumption.
        cbn [visit_spec node traverse_children said bind ret].
        rewrite (traverse_step vis (Some tag) labelName) by assumption.
        cbn [visit_spec node parent].
        change (is_tagged_template (TaggedTemplateExpression _ _)) with true.
        cbv iota.
        erewrite said_some by (apply Hchildren; lia).
        cbn [bind ret said List.app]. rewrite ?app_nil_r. reflexivity.
    + erewrite said_some; [reflexivity|]. apply Hsame; lia.
Qed.

(** The visitors of the transforms, merged in either order or alone, act
    as [visit_spec]. *)
Lemma visitors_tag_label (tag name : string) (path : NodePath) :
  call_visitors (List.concat [transformTTL tag; transformLabelToReturn name]) path
  = visit_spec (Some tag) (Some name) path.
Proof.
  destruct path as [n p]. unfold visit_spec, is_tagged_template.
  destruct n; cbn; try reflexivity.
  - now destruct (same_name (name_of n1) name); rewrite ?app_nil_r.
  - now destruct (String.eqb (node_type p) "TaggedTemplateExpression").
Qed.

Lemma visitors_label_tag (tag name : string) (path : NodePath) :
  call_visitors (List.concat [transformLabelToReturn name; transformTTL tag]) path
  = visit_spec (Some tag) (Some name) path.
Proof.
  destruct path as [n p]. unfold visit_spec, is_tagged_template.
  destruct n; cbn; try reflexivity.
  - now destruct (same_name (name_of n1) name); rewrite ?app_nil_r.
  - now destruct (String.eqb (node_type p) "TaggedTemplateExpression").
Qed.

Lemma visitors_tag (tag : string) (path : NodePath) :
  call_visitors (transformTTL tag) path = visit_spec (Some tag) None path.
Proof.
  destruct path as [n p]. unfold visit_spec, is_tagged_template.
  destruct n; cbn; try reflexivity.
  now destruct (String.eqb (node_type p) "TaggedTemplateExpression").
Qed.

Lemma visitors_label (name : string) (path : NodePath) :
  call_visitors (transformLabelToReturn name) path = visit_spec None (Some name) path.
Proof.
  destruct path as [n p]. unfold visit_spec.
  destruct n; cbn; try reflexivity.
  now destruct (same_name (name_of n1) name); rewrite ?app_nil_r.
Qed.

(** X14: the order of the two plugins does not matter: with the label pass
    first the traversal gives the same tree and the same console lines as
    with the tag insertion first, as [fromFile] has them. *)
Theorem plugin_order_irrelevant (tag name : string) (fuel : nat) (above n : Node) :
  3 * height n <= fuel ->
  traverse fuel (List.concat [transformLabelToReturn name; transformTTL tag]) above n
  = traverse fuel (List.concat [transformTTL tag; transformLabelToReturn name]) above n.
Proof.
  intros Hfuel.
  rewrite (traverse_rewrite_with _ (Some tag) (Some name) (visitors_label_tag tag name))
    by assumption.
  rewrite (traverse_rewrite_with _ (Some tag) (Some name) (visitors_tag_label tag name))
    by assumption.
  reflexivity.
Qed.

Lemma plugin_order_irrelevant_witness :
  traverse 60 (List.concat [transformLabelToReturn "template"; transformTTL "t"])
    (File (Program [])) template_js
  = traverse 60 (List.concat [transformTTL "t"; transformLabelToReturn "template"])
      (File (Program [])) template_js.
Proof.
  exact (plugin_order_irrelevant "t" "template" 60 (File (Program [])) template_js
           (proj1 (Nat.leb_le (3 * height template_js) 60) eq_refl)).
Defined.

(** ** The passes one after the other *)

Section RewriteWith.
Variables tagName labelName : option string.

Abbreviation rww := (rewrite_with tagName labelName).

Lemma rewrite_with_replaced (under : bool) (l b : Node) :
  replaced labelName (LabeledStatement l b) = true ->
  rww under (LabeledStatement l b)
  = ReturnStatement (option_map (rww false) (expression_of b)).
Proof. cbn [rewrite_with]. intros ->. now destruct b. Qed.

Lemma rewrite_with_other (under : bool) (n : Node) :
  node_type n <> "TemplateLiteral" -> replaced labelName n = false ->
  rww under n = map_children (rww (is_tagged_template n)) n.
Proof.
  intros Hlit Hrep.
  destruct n; try reflexivity.
  - cbn [rewrite_with]. now rewrite Hrep.
  - now contradiction Hlit.
Qed.

Lemma rewrite_with_literal_shape (under : bool) quasis es :
  rww under (TemplateLiteral quasis es) = TemplateLiteral quasis (map (rww false) es)
  \/ exists tag,
       rww under (TemplateLiteral quasis es)
       = TaggedTemplateExpression (Identifier tag)
           (TemplateLiteral quasis (map (rww false) es)).
Proof.
  cbn [rewrite_with]. destruct tagName as [tag|]; [|now left].
  destruct under; [now left | right; now exists tag].
Qed.

Lemma name_of_rewrite_with (under : bool) (n : Node) :
  name_of (rww under n) = name_of n.
Proof.
  destruct (rewrite_spec_cases labelName n)
    as [(q & es & ->)|[(l & b & -> & Hrep)|[Hlit Hrep]]].
  - now destruct (rewrite_with_literal_shape under q es) as [->|(tag & ->)].
  - now rewrite rewrite_with_replaced.
  - rewrite rewrite_with_other by assumption. now destruct n.
Qed.

Lemma expression_of_rewrite_with (under : bool) (n : Node) :
  expression_of (rww under n) = option_map (rww false) (expression_of n).
Proof.
  destruct (rewrite_spec_cases labelName n)
    as [(q & es & ->)|[(l & b & -> & Hrep)|[Hlit Hrep]]].
  - now destruct (rewrite_with_literal_shape under q es) as [->|(tag & ->)].
  - now rewrite rewrite_with_replaced.
  - rewrite rewrite_with_other by assumption. now destruct n.
Qed.

(** A node that the passes do not replace is replaced by another label
    pass after them if and only if it was before. *)
Lemma replaced_rewrite_with (other : option string) (under : bool) (n : Node) :
  replaced labelName n = false ->
  replaced other (rww under n) = replaced other n.
Proof.
  intros Hrep.
  destruct (rewrite_spec_cases labelName n)
    as [(q & es & ->)|[(l & b & -> & Hrep')|[Hlit _]]].
  - destruct (rewrite_with_literal_shape under q es) as [->|(tag & ->)];
      now rewrite !replaced_unlabeled by discriminate.
  - congruence.
  - rewrite rewrite_with_other by assumption.
    destruct n;
      try (rewrite !replaced_unlabeled by (cbn; discriminate); reflexivity).
    cbn [map_children]. apply replaced_by_name, name_of_rewrite_with.
Qed.

End RewriteWith.

(** With the tag insertion there, [rewrite_with] is [rewrite_spec]. *)
Lemma rewrite_with_spec (tag : string) (labelName : option string) (n : Node) :
  forall under,
    rewrite_with (Some tag) labelName under n = rewrite_spec tag labelName under n.
Proof.
  induction n as [n IH] using Node_height_ind. intros under.
  destruct (rewrite_spec_cases labelName n)
    as [(q & es & ->)|[(l & b & -> & Hrep)|[Hlit Hrep]]].
  - cbn [rewrite_with rewrite_spec].
    rewrite (map_ext_in _ (rewrite_spec tag labelName false))
      by (intros e He; apply IH, height_child; child_in).
    reflexivity.
  - rewrite rewrite_with_replaced, rewrite_spec_replaced by assumption.
    destruct (expression_of b) as [x|] eqn:Hx; [|reflexivity].
    cbn [option_map]. rewrite IH; [reflexivity|].
    apply height_expression_of in Hx. pose proof (height_body l b). lia.
  - rewrite rewrite_with_other, rewrite_spec_other by assumption.
    apply map_children_ext. intros c Hc. now apply IH, height_child.
Qed.

Section InSequence.
Variable tag : string.
Variable labelName : option string.

Abbreviation tags := (rewrite_with (Some tag) None).
Abbreviation labels := (rewrite_with None labelName).
Abbreviation merged := (rewrite_with (Some tag) labelName).

(** The label pass after the tag insertion makes the tree of the merged
    passes. *)
Lemma labels_after_tags (n : Node) :
  forall under, labels under (tags under n) = merged under n.
Proof.
  induction n as [n IH] using Node_height_ind. intros under.
  destruct (rewrite_spec_cases labelName n)
    as [(q & es & ->)|[(l & b & -> & Hrep)|[Hlit Hrep]]].
  - assert (Hes : map (labels false) (map (tags false) es) = map (merged false) es).
    { rewrite map_map. apply map_ext_in. intros e He.
      apply IH, height_child. child_in. }
    cbn [rewrite_with]. destruct under.
    + cbn [rewrite_with]. now rewrite Hes.
    + rewrite rewrite_with_other;
        [|discriminate|apply replaced_unlabeled; discriminate].
      cbn [map_children].
      change (is_tagged_template (TaggedTemplateExpression _ _)) with true.
      cbn [rewrite_with map_children]. now rewrite Hes.
  - rewrite (rewrite_with_other (Some tag) None)
      by (try discriminate; reflexivity).
    cbn [map_children].
    rewrite rewrite_with_replaced
      by (rewrite (replaced_by_name labelName l b); [assumption|];
          apply name_of_rewrite_with).
    rewrite rewrite_with_replaced by assumption.
    rewrite expression_of_rewrite_with.
    destruct (expression_of b) as [x|] eqn:Hx; [|reflexivity].
    cbn [option_map]. rewrite IH; [reflexivity|].
    apply height_expression_of in Hx. pose proof (height_body l b). lia.
  - rewrite (rewrite_with_other (Some tag) None) by (try assumption; reflexivity).
    rewrite rewrite_with_other;
      [|now rewrite node_type_map_children
       |rewrite <- (rewrite_with_other (Some tag) None false) by (try assumption; reflexivity);
        now rewrite replaced_rewrite_with].
    rewrite is_tagged_template_map_children, map_children_compose.
    rewrite (rewrite_with_other (Some tag) labelName) by assumption.
    apply map_children_ext. intros c Hc. now apply IH, height_child.
Qed.

(** The tag insertion after the label pass makes it too. *)
Lemma tags_after_labels (n : Node) :
  forall under under', tags under (labels under' n) = merged under n.
Proof.
  induction n as [n IH] using Node_height_ind. intros under under'.
  destruct (rewrite_spec_cases labelName n)
    as [(q & es & ->)|[(l & b & -> & Hrep)|[Hlit Hrep]]].
  - cbn [rewrite_with]. rewrite map_map.
    rewrite (map_ext_in _ (merged false))
      by (intros e He; apply IH, height_child; child_in).
    reflexivity.
  - rewrite !rewrite_with_replaced by assumption.
    rewrite rewrite_with_other;
      [|discriminate|apply replaced_unlabeled; discriminate].
    cbn [map_children].
    change (is_tagged_template (ReturnStatement _)) with false.
    destruct (expression_of b) as [x|] eqn:Hx; [|reflexivity].
    cbn [option_map]. rewrite IH; [reflexivity|].
    apply height_expression_of in Hx. pose proof (height_body l b). lia.
  - rewrite (rewrite_with_other None labelName) by assumption.
    rewrite rewrite_with_other;
      [|now rewrite node_type_map_children|reflexivity].
    rewrite is_tagged_template_map_children, map_children_compose.
    rewrite (rewrite_with_other (Some tag) labelName) by assumption.
    apply map_children_ext. intros c Hc. now apply IH, height_child.
Qed.

End InSequence.

(** X15: the merged traversal of [fromFile] gives the tree of the two
    passes run one after the other, in either order: the tag insertion and
    then the label pass on its result, or the label pass and then the tag
    insertion. *)
Theorem passes_in_sequence (tag name : string) (fuel fuel' : nat) (above n : Node) :
  3 * height n <= fuel ->
  let both := List.concat [transformTTL tag; transformLabelToReturn name] in
  (forall tagged,
      tree_of (traverse fuel (transformTTL tag) above n) = Some tagged ->
      3 * height tagged <= fuel' ->
      tree_of (traverse fuel' (transformLabelToReturn name) above tagged)
      = tree_of (traverse fuel both above n))
  /\ (forall returned,
      tree_of (traverse fuel (transformLabelToReturn name) above n) = Some returned ->
      3 * height returned <= fuel' ->
      tree_of (traverse fuel' (transformTTL tag) above returned)
      = tree_of (traverse fuel both above n)).
Proof.
  intros Hfuel both. unfold both.
  rewrite (traverse_rewrite_with _ _ _ (visitors_tag_label tag name)) by assumption.
  split.
  - intros tagged Hfirst Hfuel'.
    rewrite (traverse_rewrite_with _ _ _ (visitors_tag tag)) in Hfirst by assumption.
    injection Hfirst as <-.
    rewrite (traverse_rewrite_with _ _ _ (visitors_label name)) by assumption.
    cbn [tree_of option_map fst]. now rewrite labels_after_tags.
  - intros returned Hfirst Hfuel'.
    rewrite (traverse_rewrite_with _ _ _ (visitors_label name)) in Hfirst by assumption.
    injection Hfirst as <-.
    rewrite (traverse_rewrite_with _ _ _ (visitors_tag tag)) by assumption.
    cbn [tree_of option_map fst]. now rewrite tags_after_labels.
Qed.

Lemma passes_in_sequence_witness :
  tree_of (traverse 15 (transformLabelToReturn "template") (Program [])
             (LabeledStatement (Identifier "template") (ExpressionStatement item_tagged)))
  = tree_of (traverse 12
               (List.concat [transformTTL "t"; transformLabelToReturn "template"])
               (Program [])
               (LabeledStatement (Identifier "template") (ExpressionStatement item_literal))).
Proof.
  exact (proj1 (passes_in_sequence "t" "template" 12 15 (Program [])
                  (LabeledStatement (Identifier "template")
                     (ExpressionStatement item_literal)) (le_n 12))
           (LabeledStatement (Identifier "template") (ExpressionStatement item_tagged))
           eq_refl (le_n 15)).
Defined.

(** X12: the traversal with the tag insertion adds one tagged template
    expression for each template literal whose parent was not one, and no
    other. *)
Theorem transformTTL_adds_tags (tag : string) (fuel : nat) (above n n' : Node) :
  3 * height n <= fuel ->
  tree_of (traverse fuel (transformTTL tag) above n) = Some n' ->
  count_type "TaggedTemplateExpression" n'
  = count_type "TaggedTemplateExpression" n
    + untagged_literals (is_tagged_template above) n.
Proof.
  intros Hfuel Htree.
  rewrite (traverse_rewrite_with _ _ _ (visitors_tag tag)) in Htree by assumption.
  injection Htree as <-. rewrite rewrite_with_spec.
  apply insert_tags_adds_tags.
Qed.

Lemma transformTTL_adds_tags_witness :
  count_type "TaggedTemplateExpression" item_tagged
  = count_type "TaggedTemplateExpression" item_literal
    + untagged_literals (is_tagged_template (Program [])) item_literal.
Proof.
  exact (transformTTL_adds_tags "t" 6 (Program []) item_literal item_tagged
           (le_n 6) eq_refl).
Defined.

(** ** The console *)

Lemma flat_map_fold_children (g : Node -> list string) (n : Node) :
  flat_map g (fold_children (@List.app Node) [] nodes n)
  = fold_children (@List.app string) [] (fun c => flat_map g (nodes c)) n.
Proof.
  assert (Hl : forall l, flat_map g (fold_each (@List.app Node) [] nodes l)
                         = fold_each (@List.app string) [] (fun c => flat_map g (nodes c)) l).
  { induction l as [|x l IH]; [reflexivity|].
    now rewrite !fold_each_cons, flat_map_app, IH. }
  assert (Ho : forall o, flat_map g (fold_maybe [] nodes o)
                         = fold_maybe [] (fun c => flat_map g (nodes c)) o)
    by now intros [c|].
  destruct n; cbn [fold_children]; rewrite ?flat_map_app, ?Hl, ?Ho; reflexivity.
Qed.

Lemma flat_map_nodes (g : Node -> list string) (n : Node) :
  flat_map g (nodes n)
  = (g n ++ fold_children (@List.app string) [] (fun c => flat_map g (nodes c)) n)%list.
Proof.
  rewrite <- flat_map_fold_children. now destruct n.
Qed.

(** Where the label pass replaces nothing, the console lines are the labels
    of all the labeled statements, in the order of the source. *)
Lemma console_spec_all_labels (name : string) (n : Node) :
  count_labeled name n = 0 ->
  console_spec (Some name) n = flat_map label_line (nodes n).
Proof.
  unfold count_labeled.
  induction n as [n IH] using Node_children_ind. intros Hzero.
  assert (Hc : fold_children (@List.app string) [] (console_spec (Some name)) n
               = fold_children (@List.app string) []
                   (fun c => flat_map label_line (nodes c)) n).
  { apply fold_children_ext. intros c Hin. apply IH; [assumption|].
    exact (count_zero_child (is_labeled name) n c Hzero Hin). }
  pose proof (count_zero_root (is_labeled name) n Hzero) as Hroot.
  rewrite flat_map_nodes, <- Hc.
  destruct n; try reflexivity.
  cbn [console_spec replaced]. now rewrite Hroot.
Qed.

Section Console.
Variable readFileSync : string -> completion string Error.
Variable parse : string -> completion Node Error.

(** X16: what [fromFile] writes to the console while it compiles a file
    that is read and parsed: the label of each labeled statement that the
    traversal meets, in the order of the source ([console_spec]); for a
    source with no statement labeled template, these are the labels of all
    its labeled statements. *)
Theorem fromFile_console (templatePath content : string) (program : Node) (fuel : nat) :
  readFileSync templatePath = Normal content ->
  parse content = Normal (File program) ->
  3 * height program <= fuel ->
  option_map snd (fromFile readFileSync parse fuel templatePath)
  = Some (console_spec (Some "template") program)
  /\ (count_labeled "template" program = 0 ->
      option_map snd (fromFile readFileSync parse fuel templatePath)
      = Some (flat_map label_line (nodes program))).
Proof.
  intros Hread Hparse Hfuel.
  assert (Hlines : option_map snd (fromFile readFileSync parse fuel templatePath)
                   = Some (console_spec (Some "template") program)).
  { unfold fromFile, transformSync. rewrite Hread, Hparse.
    cbn [traverse_children].
    rewrite (traverse_rewrite_with _ _ _ (visitors_tag_label TAG_NAME "template"))
      by assumption.
    cbn. now rewrite !app_nil_r. }
  split; [exact Hlines|].
  intros Hzero. now rewrite Hlines, console_spec_all_labels.
Qed.

End Console.

Lemma fromFile_console_witness :
  option_map snd
    (fromFile (one_file "item.js" "template: `<li>${i}</li>`")
       (parse_as "template: `<li>${i}</li>`"
          (File (Program [LabeledStatement (Identifier "template")
                            (ExpressionStatement item_literal)])))
       15 "item.js")
  = Some ["template"].
Proof.
  exact (proj1 (fromFile_console (one_file "item.js" "template: `<li>${i}</li>`")
                  (parse_as "template: `<li>${i}</li>`"
                     (File (Program [LabeledStatement (Identifier "template")
                                       (ExpressionStatement item_literal)])))
                  "item.js" "template: `<li>${i}</li>`"
                  (Program [LabeledStatement (Identifier "template")
                              (ExpressionStatement item_literal)])
                  15 eq_refl eq_refl (le_n 15))).
Defined.
